(** * Reader: the reading-session controller, the panel-detection client
      and the comic-archive loader

    A shallow embedding of
      - [types.ts]                   (modules [Panel], [ComicPage] and
                                      [LibraryItem], and [BookType]),
      - [services/geminiService.ts]  (module [GeminiService]),
      - [services/bookService.ts]    (module [BookService]),
      - [components/ReaderView.tsx]  (module [ReaderView]),
    followed by the properties of the specification that speak about them.

    Conventions.
      - A React state hook [const [x, setX] = useState(v)] is a field [x] of
        the record [ReaderView.State] and a setter [setX]; a handler is a
        function on [State] that applies the setters it calls.  Handlers run
        against the state of the latest render, functional updates
        [setX(prev => ...)] read the field of the state they are applied to.
      - An [await] splits a handler in two: the part before it, which returns
        what the continuation captures, and the continuation, which is
        applied to whatever the state is when the promise settles.
      - JavaScript numbers that hold indices and counts are [Z]; the zoom
        factor is a rational [Q]: every value it takes is a multiple of 1/4
        between 1/4 and 5 ([Session.zoom_quarter], which lemma
        [reachable_invariant] shows for every state of a session), where
        binary floating point addition, subtraction and comparison are
        exact. *)

From Stdlib Require Import ZArith QArith Qminmax Lia Lqa Bool Ascii String.
From stdpp Require Import base option list sorting strings pretty gmap.

#[local] Set Warnings "-register-all".
#[local] Open Scope Z_scope.
#[local] Open Scope string_scope.

(** ** JavaScript strings and thrown values *)

Module Js.

(** [hay.includes(needle)] *)
Fixpoint includes (needle hay : string) : bool :=
  String.prefix needle hay ||
  match hay with
  | EmptyString => false
  | String _ hay' => includes needle hay'
  end.

Definition lower_ascii (c : ascii) : ascii :=
  let n := nat_of_ascii c in
  if (65 <=? n)%nat && (n <=? 90)%nat then ascii_of_nat (n + 32) else c.

(** [s.toLowerCase()], on the ASCII letters. *)
Fixpoint toLowerCase (s : string) : string :=
  match s with
  | EmptyString => EmptyString
  | String c s' => String (lower_ascii c) (toLowerCase s')
  end.

(** [s.endsWith(suffix)] *)
Definition endsWith (suffix s : string) : bool :=
  let n := String.length s in
  let k := String.length suffix in
  (k <=? n)%nat && String.eqb (String.substring (n - k) k s) suffix.

(** A string between double quotes, as [JSON.stringify] writes it. *)
Definition quoted (s : string) : string :=
  let q := String (ascii_of_nat 34) EmptyString in
  q +:+ s +:+ q.

(** A value caught by a [catch] clause, seen through the two observations
    the program makes of it: [JSON.stringify(e)] and [e.message]
    ([None] when the property is not a string, as for a DOM event). What
    is thrown is an object, for which [JSON.stringify] gives a string. *)
Record Thrown := {
  stringified : string;
  message : option string
}.

(** [new Error(msg)]: the message is an own, non-enumerable property, so
    the serialisation of the object is the empty object. *)
Definition Error (msg : string) : Thrown :=
  {| stringified := "{}"; message := Some msg |}.

(** The result of evaluating something that may throw. *)
Definition Completion (A : Type) : Type := Thrown + A.

End Js.

(** ** Library objects the program receives

    [JSZip] and the browser's [File] are not part of the repository. They
    are modelled by what the program reads from them. *)

Module JSZipObject.
(** One entry of [zip.files]. [image] is what becomes of the entry when
    [getComicPages] turns it into a blob, an object URL and a loaded
    [Image]: the URL with the natural width and height, or [None] when a
    step of that fails ([img.onerror], a rejected [async('blob')]).
    [dataUrl] is what [FileReader.readAsDataURL] gives for the blob. *)
Record t := {
  name : string;
  dir : bool;
  image : option (string * Z * Z);
  dataUrl : option string
}.
End JSZipObject.

(** [Object.values(zip.files)], in the order of the object's keys. *)
Abbreviation JSZip := (list JSZipObject.t).

Module File.
(** A [File] with the results of the parsers applied to it:
    [JSZip.loadAsync(file)], [pdfService.getPDFCover(file)] with
    [pdfService.getPDFDoc(file).numPages], and the cover that [epubjs]
    extracts; [None] where the parser rejects. *)
Record t := {
  name : string;
  size : Z;
  archive : option JSZip;
  pdf : option (string * Z);
  epubCover : option string
}.
End File.

(** ** types.ts *)

Module Panel.
Record t := {
  x : Q;
  y : Q;
  width : Q;
  height : Q
}.
End Panel.

Module ComicPage.
Record t := {
  id : string;
  url : string;
  width : Z;
  height : Z
}.
End ComicPage.

Inductive BookType := cbz | epub | pdf.

#[global] Instance BookType_eq_dec : EqDecision BookType.
Proof. solve_decision. Defined.

Module LibraryItem.
Record t := {
  id : string;
  file : File.t;
  title : string;
  coverUrl : string;
  type : BookType;
  totalPages : Z
}.
End LibraryItem.

(** ** services/geminiService.ts *)

Module GeminiService.

(** A value produced by [JSON.parse]. An object keeps its members in
    source order; a later member of the same name shadows an earlier one. *)
Inductive JSON :=
| JNull
| JBool (b : bool)
| JNumber (n : Q)
| JString (s : string)
| JArray (elems : list JSON)
| JObject (members : list (string * JSON)).

(** What the client observes of one call of [ai.models.generateContent]:
    either the call rejects, or it resolves and the client takes
    [response.text.trim()] and, unless that is empty, [JSON.parse] of it.
    Both are library functions; their results come with the response. *)
Inductive DetectionResponse :=
| Rejected (e : Js.Thrown)
| Responded (jsonString : string) (parsed : Js.Completion JSON).

Definition fallbackPanel : list Panel.t :=
  [ {| Panel.x := 0; Panel.y := 0; Panel.width := 100; Panel.height := 100 |} ].

(** [p[k]] for a parsed object. *)
Fixpoint member (k : string) (members : list (string * JSON)) : option JSON :=
  match members with
  | [] => None
  | (k', v) :: rest =>
      match member k rest with
      | Some v' => Some v'
      | None => if String.eqb k' k then Some v else None
      end
  end.

(** [p.k], for a [p] that is not [null]: primitives and arrays have no
    property of the four names the filter reads. *)
Definition prop (k : string) (p : JSON) : option JSON :=
  match p with
  | JObject members => member k members
  | _ => None
  end.

(** [typeof v === 'number'] with its value. *)
Definition number_of (v : option JSON) : option Q :=
  match v with
  | Some (JNumber n) => Some n
  | _ => None
  end.

(** The filter predicate of [getPanelsForPage], returning the panel read
    from an element that passes. The program keeps the element itself,
    of which later code reads these four fields only. *)
Definition toPanel (p : JSON) : option Panel.t :=
  match number_of (prop "x" p), number_of (prop "y" p),
        number_of (prop "width" p), number_of (prop "height" p) with
  | Some px, Some py, Some w, Some h =>
      Some {| Panel.x := px; Panel.y := py; Panel.width := w; Panel.height := h |}
  | _, _, _, _ => None
  end.

(** Reading a property of [null] throws a [TypeError]. *)
Definition TypeError_null : Js.Thrown :=
  Js.Error "Cannot read properties of null (reading 'x')".

(** [detectedPanels.filter(p => typeof p.x === 'number' && ...)] *)
Fixpoint filterPanels (elems : list JSON) : Js.Completion (list Panel.t) :=
  match elems with
  | [] => inr []
  | JNull :: _ => inl TypeError_null
  | p :: rest =>
      match filterPanels rest with
      | inl e => inl e
      | inr valid =>
          inr (match toPanel p with
               | Some q => q :: valid
               | None => valid
               end)
      end
  end.

(** The [try] block, from the awaited response on. *)
Definition tryBody (r : DetectionResponse) : Js.Completion (list Panel.t) :=
  match r with
  | Rejected e => inl e
  | Responded jsonString parsed =>
      if String.eqb jsonString "" then inr fallbackPanel
      else
        match parsed with
        | inl e => inl e
        | inr (JArray (p :: rest)) =>
            match filterPanels (p :: rest) with
            | inl e => inl e
            | inr validPanels =>
                inr (if (0 <? Z.of_nat (length validPanels))%Z
                     then validPanels else fallbackPanel)
            end
        | inr _ => inr fallbackPanel
        end
  end.

Definition RATE_LIMIT_MESSAGE : string :=
  "Limite de requisições atingido. A detecção de painel foi pausada. Tente novamente em alguns instantes.".

Definition GENERIC_MESSAGE : string :=
  "Não foi possível detectar os painéis da página.".

Definition rateLimited (errorString : string) : bool :=
  Js.includes "RESOURCE_EXHAUSTED" errorString || Js.includes "429" errorString.

(** The [catch] block. *)
Definition catchBlock (error : Js.Thrown) : Js.Thrown :=
  let errorString := Js.stringified error in
  if rateLimited errorString
  then Js.Error RATE_LIMIT_MESSAGE
  else Js.Error GENERIC_MESSAGE.

Definition getPanelsForPage (r : DetectionResponse) : Js.Completion (list Panel.t) :=
  match tryBody r with
  | inl error => inl (catchBlock error)
  | inr panels => inr panels
  end.

End GeminiService.

(** ** services/bookService.ts *)

Module BookService.

Definition contains_char (c : ascii) (s : string) : bool :=
  existsb (Ascii.eqb c) (list_ascii_of_string s).

(** [filename.split('.').pop()]: what follows the last dot, the whole name
    when it has none. *)
Fixpoint lastSegment (s : string) : string :=
  match s with
  | EmptyString => EmptyString
  | String c s' =>
      if contains_char "." s' then lastSegment s'
      else if Ascii.eqb c "." then s' else String c s'
  end.

(** What precedes the last dot. *)
Fixpoint beforeLastDot (s : string) : string :=
  match s with
  | EmptyString => EmptyString
  | String c s' =>
      if contains_char "." s' then String c (beforeLastDot s')
      else if Ascii.eqb c "." then EmptyString else String c s'
  end.

Definition getFileExtension (filename : string) : string :=
  Js.toLowerCase (lastSegment filename).

(** [/\.(jpe?g|png|gif|webp)$/i.test(name)] *)
Definition isImageName (name : string) : bool :=
  let lower := Js.toLowerCase name in
  existsb (fun suffix => Js.endsWith suffix lower)
          [".jpg"; ".jpeg"; ".png"; ".gif"; ".webp"].

(** [name.replace(/\.[^/.]+$/, "")]: the pattern matches from the last dot
    when a non-empty run without a slash follows it to the end. *)
Definition stripExtension (name : string) : string :=
  let ext := lastSegment name in
  if contains_char "." name
     && negb (String.eqb ext "")
     && negb (contains_char "/" ext)
  then beforeLastDot name else name.

Section Collation.

(** [a.localeCompare(b, undefined, { numeric: true })]: negative, zero
    or positive. The collation is the host's. *)
Variable localeCompare : string -> string -> Z.

(** [Array.prototype.sort] with a comparator is stable: an element goes
    in front of the first one it does not follow. *)
Fixpoint insertSorted (f : JSZipObject.t) (sorted : JSZip) : JSZip :=
  match sorted with
  | [] => [f]
  | g :: rest =>
      if (localeCompare (JSZipObject.name f) (JSZipObject.name g) <=? 0)%Z
      then f :: g :: rest
      else g :: insertSorted f rest
  end.

Fixpoint sort (files : JSZip) : JSZip :=
  match files with
  | [] => []
  | f :: rest => insertSorted f (sort rest)
  end.

(** The order that the comparator of [getSortedImageFiles] states. *)
Definition precedes (f g : JSZipObject.t) : Prop :=
  (localeCompare (JSZipObject.name f) (JSZipObject.name g) <= 0)%Z.

Definition getSortedImageFiles (zip : JSZip) : JSZip :=
  sort (List.filter
          (fun f => negb (JSZipObject.dir f) && isImageName (JSZipObject.name f))
          zip).

(** The body of the [map] callback: a page, or [null]. *)
Definition toComicPage (imageFile : JSZipObject.t) : option ComicPage.t :=
  match JSZipObject.image imageFile with
  | Some (url, naturalWidth, naturalHeight) =>
      Some {| ComicPage.id := JSZipObject.name imageFile;
              ComicPage.url := url;
              ComicPage.width := naturalWidth;
              ComicPage.height := naturalHeight |}
  | None => None
  end.

(** [getComicPages], once [JSZip.loadAsync] has resolved. *)
Definition getComicPages (zip : JSZip) : list ComicPage.t :=
  omap toComicPage (getSortedImageFiles zip).

(** [getComicCover]; [None] when reading the first page rejects. *)
Definition getComicCover (zip : JSZip) : option string :=
  match getSortedImageFiles zip with
  | first :: _ => JSZipObject.dataUrl first
  | [] => Some ""
  end.

Definition typeOfExtension (ext : string) : option BookType :=
  if String.eqb ext "cbz" then Some cbz
  else if String.eqb ext "epub" then Some epub
  else if String.eqb ext "pdf" then Some pdf
  else None.

(** The cover and the page count of the [try] block; [None] when one of
    the awaited calls rejects. *)
Definition coverAndPages (type : BookType) (file : File.t) : option (string * Z) :=
  match type with
  | cbz =>
      zip ← File.archive file;
      coverUrl ← getComicCover zip;
      Some (coverUrl, Z.of_nat (length (getSortedImageFiles zip)))
  | epub =>
      coverUrl ← File.epubCover file;
      Some (coverUrl, 100)
  | pdf => File.pdf file
  end.

Definition createLibraryItem (file : File.t) : option LibraryItem.t :=
  type ← typeOfExtension (getFileExtension (File.name file));
  '(coverUrl, totalPages) ← coverAndPages type file;
  Some {| LibraryItem.id := File.name file +:+ "-" +:+ pretty (File.size file);
          LibraryItem.file := file;
          LibraryItem.title := stripExtension (File.name file);
          LibraryItem.coverUrl := coverUrl;
          LibraryItem.type := type;
          LibraryItem.totalPages := totalPages |}.

End Collation.

End BookService.

(** ** components/ReaderView.tsx *)

Module ReaderView.

Definition MIN_ZOOM : Q := 1 # 4.
Definition MAX_ZOOM : Q := 5.
Definition ZOOM_STEP : Q := 1 # 4.

Inductive ViewMode := page | panel.

#[global] Instance ViewMode_eq_dec : EqDecision ViewMode.
Proof. solve_decision. Defined.

Inductive Direction := zoomIn | zoomOut.

(** The state hooks of the component. [pdfDoc] holds the document proxy,
    of which the component reads [numPages]. *)
Record State := {
  isLoading : bool;
  isPanelDetectionRunning : bool;
  error : option string;
  comicPages : list ComicPage.t;
  pdfDoc : option Z;
  totalEpubPages : Z;
  currentPageIndex : Z;
  currentPanelIndex : Z;
  viewMode : ViewMode;
  panels : list Panel.t;
  panelsCache : gmap string (list Panel.t);
  zoom : Q;
  isFitToScreen : bool
}.

(** The setters of the hooks. *)

Definition setIsLoading (v : bool) (s : State) : State :=
  {| isLoading := v; isPanelDetectionRunning := isPanelDetectionRunning
     s; error := error s; comicPages := comicPages s; pdfDoc := pdfDoc
     s; totalEpubPages := totalEpubPages s; currentPageIndex :=
     currentPageIndex s; currentPanelIndex := currentPanelIndex s;
     viewMode := viewMode s; panels := panels s; panelsCache :=
     panelsCache s; zoom := zoom s; isFitToScreen := isFitToScreen s |}.

Definition setIsPanelDetectionRunning (v : bool) (s : State) : State :=
  {| isLoading := isLoading s; isPanelDetectionRunning := v; error :=
     error s; comicPages := comicPages s; pdfDoc := pdfDoc s;
     totalEpubPages := totalEpubPages s; currentPageIndex :=
     currentPageIndex s; currentPanelIndex := currentPanelIndex s;
     viewMode := viewMode s; panels := panels s; panelsCache :=
     panelsCache s; zoom := zoom s; isFitToScreen := isFitToScreen s |}.

Definition setError (v : option string) (s : State) : State :=
  {| isLoading := isLoading s; isPanelDetectionRunning :=
     isPanelDetectionRunning s; error := v; comicPages := comicPages s;
     pdfDoc := pdfDoc s; totalEpubPages := totalEpubPages s;
     currentPageIndex := currentPageIndex s; currentPanelIndex :=
     currentPanelIndex s; viewMode := viewMode s; panels := panels s;
     panelsCache := panelsCache s; zoom := zoom s; isFitToScreen :=
     isFitToScreen s |}.

Definition setComicPages (v : list ComicPage.t) (s : State) : State :=
  {| isLoading := isLoading s; isPanelDetectionRunning :=
     isPanelDetectionRunning s; error := error s; comicPages := v;
     pdfDoc := pdfDoc s; totalEpubPages := totalEpubPages s;
     currentPageIndex := currentPageIndex s; currentPanelIndex :=
     currentPanelIndex s; viewMode := viewMode s; panels := panels s;
     panelsCache := panelsCache s; zoom := zoom s; isFitToScreen :=
     isFitToScreen s |}.

Definition setPdfDoc (v : option Z) (s : State) : State :=
  {| isLoading := isLoading s; isPanelDetectionRunning :=
     isPanelDetectionRunning s; error := error s; comicPages :=
     comicPages s; pdfDoc := v; totalEpubPages := totalEpubPages s;
     currentPageIndex := currentPageIndex s; currentPanelIndex :=
     currentPanelIndex s; viewMode := viewMode s; panels := panels s;
     panelsCache := panelsCache s; zoom := zoom s; isFitToScreen :=
     isFitToScreen s |}.

Definition setTotalEpubPages (v : Z) (s : State) : State :=
  {| isLoading := isLoading s; isPanelDetectionRunning :=
     isPanelDetectionRunning s; error := error s; comicPages :=
     comicPages s; pdfDoc := pdfDoc s; totalEpubPages := v;
     currentPageIndex := currentPageIndex s; currentPanelIndex :=
     currentPanelIndex s; viewMode := viewMode s; panels := panels s;
     panelsCache := panelsCache s; zoom := zoom s; isFitToScreen :=
     isFitToScreen s |}.

Definition setCurrentPageIndex (v : Z) (s : State) : State :=
  {| isLoading := isLoading s; isPanelDetectionRunning :=
     isPanelDetectionRunning s; error := error s; comicPages :=
     comicPages s; pdfDoc := pdfDoc s; totalEpubPages := totalEpubPages
     s; currentPageIndex := v; currentPanelIndex := currentPanelIndex s;
     viewMode := viewMode s; panels := panels s; panelsCache :=
     panelsCache s; zoom := zoom s; isFitToScreen := isFitToScreen s |}.

Definition setCurrentPanelIndex (v : Z) (s : State) : State :=
  {| isLoading := isLoading s; isPanelDetectionRunning :=
     isPanelDetectionRunning s; error := error s; comicPages :=
     comicPages s; pdfDoc := pdfDoc s; totalEpubPages := totalEpubPages
     s; currentPageIndex := currentPageIndex s; currentPanelIndex := v;
     viewMode := viewMode s; panels := panels s; panelsCache :=
     panelsCache s; zoom := zoom s; isFitToScreen := isFitToScreen s |}.

Definition setViewMode (v : ViewMode) (s : State) : State :=
  {| isLoading := isLoading s; isPanelDetectionRunning :=
     isPanelDetectionRunning s; error := error s; comicPages :=
     comicPages s; pdfDoc := pdfDoc s; totalEpubPages := totalEpubPages
     s; currentPageIndex := currentPageIndex s; currentPanelIndex :=
     currentPanelIndex s; viewMode := v; panels := panels s; panelsCache
     := panelsCache s; zoom := zoom s; isFitToScreen := isFitToScreen s |}.

Definition setPanels (v : list Panel.t) (s : State) : State :=
  {| isLoading := isLoading s; isPanelDetectionRunning :=
     isPanelDetectionRunning s; error := error s; comicPages :=
     comicPages s; pdfDoc := pdfDoc s; totalEpubPages := totalEpubPages
     s; currentPageIndex := currentPageIndex s; currentPanelIndex :=
     currentPanelIndex s; viewMode := viewMode s; panels := v;
     panelsCache := panelsCache s; zoom := zoom s; isFitToScreen :=
     isFitToScreen s |}.

Definition setPanelsCache (v : gmap string (list Panel.t)) (s : State) : State :=
  {| isLoading := isLoading s; isPanelDetectionRunning :=
     isPanelDetectionRunning s; error := error s; comicPages :=
     comicPages s; pdfDoc := pdfDoc s; totalEpubPages := totalEpubPages
     s; currentPageIndex := currentPageIndex s; currentPanelIndex :=
     currentPanelIndex s; viewMode := viewMode s; panels := panels s;
     panelsCache := v; zoom := zoom s; isFitToScreen := isFitToScreen s |}.

Definition setZoom (v : Q) (s : State) : State :=
  {| isLoading := isLoading s; isPanelDetectionRunning :=
     isPanelDetectionRunning s; error := error s; comicPages :=
     comicPages s; pdfDoc := pdfDoc s; totalEpubPages := totalEpubPages
     s; currentPageIndex := currentPageIndex s; currentPanelIndex :=
     currentPanelIndex s; viewMode := viewMode s; panels := panels s;
     panelsCache := panelsCache s; zoom := v; isFitToScreen :=
     isFitToScreen s |}.

Definition setIsFitToScreen (v : bool) (s : State) : State :=
  {| isLoading := isLoading s; isPanelDetectionRunning :=
     isPanelDetectionRunning s; error := error s; comicPages :=
     comicPages s; pdfDoc := pdfDoc s; totalEpubPages := totalEpubPages
     s; currentPageIndex := currentPageIndex s; currentPanelIndex :=
     currentPanelIndex s; viewMode := viewMode s; panels := panels s;
     panelsCache := panelsCache s; zoom := zoom s; isFitToScreen := v |}.

#[local] Notation "s |> f" := (f s) (at level 40, left associativity, only parsing).

Definition initialState : State :=
  {| isLoading := true; isPanelDetectionRunning := false; error := None;
     comicPages := []; pdfDoc := None; totalEpubPages := 0;
     currentPageIndex := 0; currentPanelIndex := -1; viewMode := page;
     panels := []; panelsCache := ∅; zoom := 1; isFitToScreen := true |}.

(** [a[i]] for a number [i] that holds an integer. *)
Definition at_index {A : Type} (a : list A) (i : Z) : option A :=
  if (i <? 0)%Z then None else a !! Z.to_nat i.

(** [e.message || fallback] *)
Definition message_or (e : Js.Thrown) (fallback : string) : string :=
  match Js.message e with
  | Some m => if String.eqb m "" then fallback else m
  | None => fallback
  end.

(** What the awaited call of [loadBook] resolves to. For an EPUB the
    rendition is not created: [viewerRef.current] is [null] while the
    spinner is shown, which it is from the first render on. *)
Inductive Loaded :=
| ComicPages (pages : list ComicPage.t)
| PDFDocument (numPages : Z)
| EpubLocations (length : Z).

(** How one run of the asynchronous part of [handleDetectPanels] goes:
    [resizeImageForGemini] rejects, or it resolves and [getPanelsForPage]
    sends its request, to which the service responds. *)
Inductive DetectionRun :=
| ResizeFailed (e : Js.Thrown)
| Requested (r : GeminiService.DetectionResponse).

Definition detectionResult (run : DetectionRun) : Js.Completion (list Panel.t) :=
  match run with
  | ResizeFailed e => inl e
  | Requested r => GeminiService.getPanelsForPage r
  end.

Section Component.

Variable book : LibraryItem.t.

Definition totalPages (s : State) : Z :=
  match LibraryItem.type book, pdfDoc s with
  | cbz, _ => Z.of_nat (length (comicPages s))
  | pdf, Some numPages => numPages
  | epub, _ => totalEpubPages s
  | pdf, None => LibraryItem.totalPages book
  end.

(** [loadBook] up to its first [await]. *)
Definition loadBook (s : State) : State :=
  s |> setIsLoading true
    |> setError None
    |> setComicPages []
    |> setPdfDoc None
    |> setCurrentPageIndex 0
    |> setPanelsCache ∅
    |> setPanels []
    |> setViewMode page
    |> setZoom 1
    |> setIsFitToScreen true.

(** [loadBook] from the settled [await] on: the rest of the [try]
    block or the [catch] block, then [finally]. *)
Definition loadBook_settled (r : Js.Completion Loaded) (s : State) : State :=
  (match r with
   | inr (ComicPages pages) => s |> setComicPages pages
   | inr (PDFDocument numPages) => s |> setPdfDoc (Some numPages)
   | inr (EpubLocations n) => s |> setTotalEpubPages n
   | inl _ =>
       s |> setError (Some "Failed to load the book. The file might be corrupted or in an unsupported format.")
   end)
  |> setIsLoading false.

(** [handleDetectPanels] up to its first [await]: the new state and,
    when the cache has nothing for the page, the page the continuation
    captures. *)
Definition handleDetectPanels (s : State) : State * option ComicPage.t :=
  if negb (bool_decide (LibraryItem.type book = cbz))
     || (Z.of_nat (length (comicPages s)) =? 0)%Z
  then (s, None)
  else
    match at_index (comicPages s) (currentPageIndex s) with
    | None => (s, None)
    | Some currentPage =>
        if String.eqb (ComicPage.url currentPage) "" then (s, None)
        else
          match panelsCache s !! ComicPage.id currentPage with
          | Some cached =>
              (s |> setPanels cached
                 |> setViewMode panel
                 |> setCurrentPanelIndex 0, None)
          | None =>
              (s |> setIsPanelDetectionRunning true
                 |> setError None, Some currentPage)
          end
    end.

(** The [catch] block of [handleDetectPanels]. *)
Definition detectionFailed (err : Js.Thrown) (s : State) : State :=
  s |> setError (Some (message_or err "Could not detect panels for this page."))
    |> setViewMode page.

(** [handleDetectPanels] from the settled awaits on, for the captured
    [currentPage], applied to the state at that time. *)
Definition handleDetectPanels_settled (currentPage : ComicPage.t)
    (r : Js.Completion (list Panel.t)) (s : State) : State :=
  (match r with
   | inr detectedPanels =>
       if (0 <? Z.of_nat (length detectedPanels))%Z
       then
         s |> setPanels detectedPanels
           |> setPanelsCache (<[ComicPage.id currentPage := detectedPanels]> (panelsCache s))
           |> setViewMode panel
           |> setCurrentPanelIndex 0
       else detectionFailed (Js.Error "No panels were detected on this page.") s
   | inl err => detectionFailed err s
   end)
  |> setIsPanelDetectionRunning false.

(** The page change common to [goToNext] and [goToPrev]. The rendition
    of an EPUB is [null], so [renditionRef.current?.next()] and
    [prev()] do nothing. *)
Definition turnPage (delta : Z) (s : State) : State :=
  let s' := s |> setCurrentPageIndex (currentPageIndex s + delta)
              |> setPanels []
              |> setCurrentPanelIndex (-1) in
  if bool_decide (LibraryItem.type book ≠ epub)
  then s' |> setViewMode page
  else s'.

Definition goToNext (s : State) : State :=
  if bool_decide (viewMode s = panel)
     && (currentPanelIndex s <? Z.of_nat (length (panels s)) - 1)%Z
  then s |> setCurrentPanelIndex (currentPanelIndex s + 1)
  else if (currentPageIndex s <? totalPages s - 1)%Z
  then turnPage 1 s
  else s.

Definition goToPrev (s : State) : State :=
  if bool_decide (viewMode s = panel) && (0 <? currentPanelIndex s)%Z
  then s |> setCurrentPanelIndex (currentPanelIndex s - 1)
  else if (0 <? currentPageIndex s)%Z
  then turnPage (-1) s
  else s.

Definition handleZoom (direction : Direction) (s : State) : State :=
  let newZoom :=
    match direction with
    | zoomIn => (zoom s + ZOOM_STEP)%Q
    | zoomOut => (zoom s - ZOOM_STEP)%Q
    end in
  s |> setIsFitToScreen false
    |> setZoom (Qmax MIN_ZOOM (Qmin MAX_ZOOM newZoom)).

(** [isFitToScreen] in the condition is the value of the render the
    handler closes over, that is, the value before the flip. *)
Definition toggleFitToScreen (s : State) : State :=
  let s' := s |> setIsFitToScreen (negb (isFitToScreen s)) in
  if negb (isFitToScreen s) then s' |> setZoom 1 else s'.

(** The inline handlers of the footer. *)
Definition pageViewClicked (s : State) : State :=
  s |> setViewMode page |> setCurrentPanelIndex (-1).

Definition panelViewClicked (s : State) : State * option ComicPage.t :=
  if (0 <? Z.of_nat (length (panels s)))%Z
  then (s |> setViewMode panel |> setCurrentPanelIndex 0, None)
  else handleDetectPanels s.

Definition zoomLabelClicked (s : State) : State :=
  s |> setZoom 1.

End Component.
(** *** The mounted component

    One reading session: [App] mounts a [ReaderView] when a book is
    selected and unmounts it when the reader is closed. Next to the hooks,
    a session has the detection calls that have not settled yet, each with
    the page its continuation captured, and, for the record, the pages for
    which a request went out to the service. *)

Record Reader := {
  book : LibraryItem.t;
  state : State;
  inFlight : list ComicPage.t;
  requestLog : list string
}.

Inductive Event :=
| LoadSettled (r : Js.Completion Loaded)
| Next
| Prev
| DetectClicked
| PageViewClicked
| PanelViewClicked
| DetectionSettled (k : nat) (outcome : DetectionRun)
| ZoomClicked (direction : Direction)
| ZoomLabelClicked
| FitClicked.

(** Mounting: the initial values of the hooks, then the effect that runs
    [loadBook]. *)
Definition mount (b : LibraryItem.t) : Reader :=
  {| book := b; state := loadBook initialState; inFlight := []; requestLog := [] |}.

Definition withState (r : Reader) (s : State) : Reader :=
  {| book := book r; state := s; inFlight := inFlight r; requestLog := requestLog r |}.

(** A handler that may start a detection call. *)
Definition withDetection (r : Reader) (res : State * option ComicPage.t) : Reader :=
  {| book := book r;
     state := res.1;
     inFlight := match res.2 with
                 | Some currentPage => inFlight r ++ [currentPage]
                 | None => inFlight r
                 end;
     requestLog := requestLog r |}.

Definition requestsOf (currentPage : ComicPage.t) (run : DetectionRun) : list string :=
  match run with
  | Requested _ => [ComicPage.id currentPage]
  | ResizeFailed _ => []
  end.

(** The panel controls are rendered for a comic archive only, the zoom
    controls for every type but EPUB; the detection button is disabled while
    a detection runs. The arrow keys are always bound. The promise of
    [loadBook] settles once, while [isLoading] holds. *)
Definition step (r : Reader) (e : Event) : Reader :=
  let b := book r in
  let s := state r in
  let isCbz := bool_decide (LibraryItem.type b = cbz) in
  let notEpub := bool_decide (LibraryItem.type b ≠ epub) in
  match e with
  | LoadSettled res =>
      if isLoading s then withState r (loadBook_settled res s) else r
  | Next => withState r (goToNext b s)
  | Prev => withState r (goToPrev b s)
  | DetectClicked =>
      if isCbz && negb (isPanelDetectionRunning s)
      then withDetection r (handleDetectPanels b s) else r
  | PageViewClicked =>
      if isCbz then withState r (pageViewClicked s) else r
  | PanelViewClicked =>
      if isCbz then withDetection r (panelViewClicked b s) else r
  | DetectionSettled k outcome =>
      match inFlight r !! k with
      | Some currentPage =>
          {| book := b;
             state := handleDetectPanels_settled currentPage (detectionResult outcome) s;
             inFlight := delete k (inFlight r);
             requestLog := requestLog r ++ requestsOf currentPage outcome |}
      | None => r
      end
  | ZoomClicked direction =>
      if notEpub then withState r (handleZoom direction s) else r
  | ZoomLabelClicked =>
      if notEpub then withState r (zoomLabelClicked s) else r
  | FitClicked =>
      if notEpub then withState r (toggleFitToScreen s) else r
  end.

Definition run (r : Reader) (events : list Event) : Reader :=
  foldl step r events.

(** The awaited call of [loadBook] is the one of the book's type, and a PDF
    has the number of pages that [createLibraryItem] read from the same
    file. *)
Definition loadedFits (b : LibraryItem.t) (res : Js.Completion Loaded) : Prop :=
  match res with
  | inr (ComicPages _) => LibraryItem.type b = cbz
  | inr (PDFDocument numPages) =>
      LibraryItem.type b = pdf ∧ numPages = LibraryItem.totalPages b
  | inr (EpubLocations _) => LibraryItem.type b = epub
  | inl _ => True
  end.

Definition possible (r : Reader) (e : Event) : Prop :=
  match e with
  | LoadSettled res => loadedFits (book r) res
  | _ => True
  end.

Fixpoint allPossible (r : Reader) (events : list Event) : Prop :=
  match events with
  | [] => True
  | e :: rest => possible r e ∧ allPossible (step r e) rest
  end.

Inductive reachable : Reader → Prop :=
| reachable_mount (b : LibraryItem.t) :
    reachable (mount b)
| reachable_step (r : Reader) (e : Event) :
    reachable r → possible r e → reachable (step r e).

(** [pageCount] of the specification. *)
Definition pageCount (r : Reader) : Z := totalPages (book r) (state r).

End ReaderView.

(** ** Vocabulary of the specification

    The predicates below are not part of the program: they name what the
    specification says about detection responses, so that the client can be
    compared with it. *)

Module Spec.
Import GeminiService.

Definition isNull (p : JSON) : bool :=
  match p with
  | JNull => true
  | _ => false
  end.

(** The parsed response has no [null] among its elements. *)
Definition elementsAreValues (v : JSON) : bool :=
  match v with
  | JArray elems => forallb (fun p => negb (isNull p)) elems
  | _ => true
  end.

(** The elements of a parsed response that have four numeric fields, in
    their order; none when the response is not an array. *)
Definition validElements (v : JSON) : list Panel.t :=
  match v with
  | JArray elems => omap toPanel elems
  | _ => []
  end.

(** The message for an error of the provider: retry later when the
    serialised error has a rate-limit indicator in it, generic otherwise. *)
Definition surfaced (e : Js.Thrown) : string :=
  if rateLimited (Js.stringified e) then RATE_LIMIT_MESSAGE else GENERIC_MESSAGE.

(** The fallback for a response without a valid element. *)
Definition orFallback (valid : list Panel.t) : list Panel.t :=
  match valid with
  | [] => fallbackPanel
  | _ :: _ => valid
  end.

End Spec.

(** ** Concrete sessions

    A comic archive of three image entries, the second of which does not
    decode, the library item made from it, and the data of the sessions
    that the properties below are tried on. *)

Module Scenario.
Import GeminiService ReaderView.

(** A collation for names that differ in their digits only. *)
Definition compareNames (a b : string) : Z :=
  match String.compare a b with
  | Lt => -1
  | Eq => 0
  | Gt => 1
  end.

Definition entry (name : string) (image : option (string * Z * Z)) : JSZipObject.t :=
  {| JSZipObject.name := name;
     JSZipObject.dir := false;
     JSZipObject.image := image;
     JSZipObject.dataUrl := Some ("data:image/png;base64," +:+ name) |}.

Definition archive : JSZip :=
  [ entry "03.png" (Some ("blob:3", 800, 1200));
    {| JSZipObject.name := "notes.txt"; JSZipObject.dir := false;
       JSZipObject.image := None; JSZipObject.dataUrl := None |};
    entry "01.png" (Some ("blob:1", 800, 1200));
    entry "02.PNG" None ].

Definition comicFile : File.t :=
  {| File.name := "comic.cbz"; File.size := 4096;
     File.archive := Some archive; File.pdf := None; File.epubCover := None |}.

Definition comicBook : LibraryItem.t :=
  {| LibraryItem.id := "comic.cbz-4096";
     LibraryItem.file := comicFile;
     LibraryItem.title := "comic";
     LibraryItem.coverUrl := "data:image/png;base64,01.png";
     LibraryItem.type := cbz;
     LibraryItem.totalPages := 3 |}.

Definition page1 : ComicPage.t :=
  {| ComicPage.id := "01.png"; ComicPage.url := "blob:1";
     ComicPage.width := 800; ComicPage.height := 1200 |}.

Definition page3 : ComicPage.t :=
  {| ComicPage.id := "03.png"; ComicPage.url := "blob:3";
     ComicPage.width := 800; ComicPage.height := 1200 |}.

(** An archive without an image entry. *)
Definition emptyFile : File.t :=
  {| File.name := "empty.cbz"; File.size := 22;
     File.archive := Some []; File.pdf := None; File.epubCover := None |}.

Definition emptyBook : LibraryItem.t :=
  {| LibraryItem.id := "empty.cbz-22";
     LibraryItem.file := emptyFile;
     LibraryItem.title := "empty";
     LibraryItem.coverUrl := "";
     LibraryItem.type := cbz;
     LibraryItem.totalPages := 0 |}.

Definition box (x y w h : Q) : JSON :=
  JObject [("x", JNumber x); ("y", JNumber y); ("width", JNumber w); ("height", JNumber h)].

Definition leftHalf : Panel.t :=
  {| Panel.x := 0; Panel.y := 0; Panel.width := 50; Panel.height := 100 |}.

Definition rightHalf : Panel.t :=
  {| Panel.x := 50; Panel.y := 0; Panel.width := 50; Panel.height := 100 |}.

(** A response with two panels around an element without a height and a
    number. *)
Definition twoPanels : DetectionResponse :=
  Responded "[{..x:0..},{..x:10..},7,{..x:50..}]"
    (inr (JArray [ box 0 0 50 100;
                   JObject [("x", JNumber 10); ("y", JNumber 0); ("width", JNumber 5)];
                   JNumber 7;
                   box 50 0 50 100 ])).

(** A body that is not JSON: [JSON.parse] throws a [SyntaxError]. *)
Definition notJson : DetectionResponse :=
  Responded "Sorry, I cannot help with that."
    (inl (Js.Error "Unexpected token 'S', ... is not valid JSON")).

(** The body [[null]]. *)
Definition nullElement : DetectionResponse :=
  Responded "[null]" (inr (JArray [JNull])).

(** The provider's error for a request over the quota: an object with the
    enumerable properties [name] and [status]. *)
Definition quotaError : Js.Thrown :=
  {| Js.stringified :=
       "{" +:+ Js.quoted "name" +:+ ":" +:+ Js.quoted "ApiError" +:+ ","
           +:+ Js.quoted "status" +:+ ":429}";
     Js.message := Some "got status: 429 Too Many Requests. RESOURCE_EXHAUSTED" |}.


Definition loaded : Event :=
  LoadSettled (inr (ComicPages [page1; page3])).

(** An archive without images is opened. *)
Definition emptyArchiveOpened : Reader :=
  run (mount emptyBook) [LoadSettled (inr (ComicPages []))].

(** The panel view is asked for twice before a response arrives; the first
    request succeeds, the second is refused. *)
Definition secondRequestRefused : Reader :=
  run (mount comicBook)
    [ loaded; PanelViewClicked; PanelViewClicked;
      DetectionSettled 0 (Requested twoPanels);
      DetectionSettled 0 (Requested (Rejected quotaError)) ].



(** Detection is refused for the quota and tried again. *)
Definition retried : Reader :=
  run (mount comicBook)
    [ loaded; DetectClicked;
      DetectionSettled 0 (Requested (Rejected quotaError));
      DetectClicked;
      DetectionSettled 0 (Requested twoPanels) ].

(** The panel view of the first page, on its second panel. *)
Definition onSecondPanel : Reader :=
  run (mount comicBook)
    [ loaded; DetectClicked; DetectionSettled 0 (Requested twoPanels); Next ].

(** Back in page view on the first page, whose panels are cached. *)
Definition backInPageView : Reader :=
  run (mount comicBook)
    [ loaded; DetectClicked; DetectionSettled 0 (Requested twoPanels);
      PageViewClicked ].

(** On the last page, in page view. *)
Definition onLastPage : Reader :=
  run (mount comicBook) [ loaded; Next ].

(** Zoomed in once. *)
Definition zoomedIn : Reader :=
  run (mount comicBook) [ loaded; ZoomClicked zoomIn ].

End Scenario.

(** ** What holds throughout a session *)

Module Session.
Import ReaderView.

Record invariant (r : Reader) : Prop := {
  page_lower : 0 <= currentPageIndex (state r);
  page_upper :
    currentPageIndex (state r) < pageCount r ∨ currentPageIndex (state r) = 0;
  panel_lower : -1 <= currentPanelIndex (state r);
  panel_range :
    viewMode (state r) = panel →
    0 <= currentPanelIndex (state r) < Z.of_nat (length (panels (state r)));
  panel_cbz : viewMode (state r) = panel → LibraryItem.type (book r) = cbz;
  calls_cbz : inFlight r ≠ [] → LibraryItem.type (book r) = cbz;
  loading_empty :
    isLoading (state r) = true →
    comicPages (state r) = [] ∧ pdfDoc (state r) = None ∧
    totalEpubPages (state r) = 0;
  cache_nonempty :
    ∀ id ps, panelsCache (state r) !! id = Some ps → ps ≠ [];
  fit_zoom : isFitToScreen (state r) = true → zoom (state r) = 1%Q;
  zoom_quarter :
    ∃ k : Z, 1 <= k <= 20 ∧ (zoom (state r) == inject_Z k * (1 # 4))%Q
}.

End Session.

(** ** services/bookService.ts: scaling an image for the detector *)

Module ImageResize.

Definition MAX_GEMINI_IMAGE_DIMENSION : Z := 1024.

(** [Math.round(a / b)] for integers [0 <= a] and [0 < b]: the quotient
    rounded to the nearest integer, a half upwards. The double division of
    the program gives this integer for all sides below 2^21. *)
Definition roundDiv (a b : Z) : Z := (2 * a + b) / (2 * b).

(** [newWidth] and [newHeight] of [resizeImageForGemini]. *)
Definition newDimensions (width height : Z) : Z * Z :=
  if (height <? width)%Z then
    if (MAX_GEMINI_IMAGE_DIMENSION <? width)%Z
    then (MAX_GEMINI_IMAGE_DIMENSION,
          roundDiv (height * MAX_GEMINI_IMAGE_DIMENSION) width)
    else (width, height)
  else
    if (MAX_GEMINI_IMAGE_DIMENSION <? height)%Z
    then (roundDiv (width * MAX_GEMINI_IMAGE_DIMENSION) height,
          MAX_GEMINI_IMAGE_DIMENSION)
    else (width, height).

(** [resizeImageForGemini] for an image that loads with the given width and
    height. [toDataURL] is the canvas: [None] when it gives no 2d context,
    otherwise the JPEG data URL of the image drawn at a size. *)
Definition resizeImageForGemini (dataUrl : string) (width height : Z)
    (toDataURL : option (Z → Z → string)) : Js.Completion string :=
  let '(newWidth, newHeight) := newDimensions width height in
  if (newWidth =? width)%Z && (newHeight =? height)%Z then inr dataUrl
  else
    match toDataURL with
    | None => inl (Js.Error "Could not get canvas context for resizing")
    | Some draw => inr (draw newWidth newHeight)
    end.

End ImageResize.

(** ** services/db.ts

    The object store [library] of the database, with the key path [id]: a
    map from the [id] of a record to the record. Opening the database is
    taken to succeed. *)

Module Db.

Abbreviation Store := (gmap string LibraryItem.t).

(** [store.getAll()]. The order of the records, which is that of their
    keys, is not modelled: the library view sorts them by title. *)
Definition getBooks (store : Store) : list LibraryItem.t :=
  (map_to_list store).*2.

(** [store.add(book)] fails when the key is taken. *)
Definition addBook (book : LibraryItem.t) (store : Store) : string + Store :=
  match store !! LibraryItem.id book with
  | Some _ => inl "Error adding book"
  | None => inr (<[LibraryItem.id book := book]> store)
  end.

(** [store.delete(bookId)] succeeds whether or not the key is there. *)
Definition deleteBook (bookId : string) (store : Store) : Store :=
  delete bookId store.

Definition withTitle (newTitle : string) (book : LibraryItem.t) : LibraryItem.t :=
  {| LibraryItem.id := LibraryItem.id book;
     LibraryItem.file := LibraryItem.file book;
     LibraryItem.title := newTitle;
     LibraryItem.coverUrl := LibraryItem.coverUrl book;
     LibraryItem.type := LibraryItem.type book;
     LibraryItem.totalPages := LibraryItem.totalPages book |}.

(** [store.get(bookId)], then [store.put] of the record with the new
    title. *)
Definition updateBookTitle (bookId newTitle : string) (store : Store)
    : string + Store :=
  match store !! bookId with
  | Some book => inr (<[LibraryItem.id book := withTitle newTitle book]> store)
  | None => inl "Book not found"
  end.

End Db.

(** ** App.tsx

    The library of the application next to the database it is kept in. A
    handler awaits its database call and then updates the library; it is
    modelled from the call to the update, as it runs when no other update
    comes between the two. *)

Module App.

(** [`${file.name}-${file.size}`] *)
Definition fileId (file : File.t) : string :=
  File.name file +:+ "-" +:+ pretty (File.size file).

Definition inLibrary (library : list LibraryItem.t) (file : File.t) : bool :=
  existsb (fun item => String.eqb (LibraryItem.id item) (fileId file)) library.

(** [filesToProcess] of [handleFileProcessing]. *)
Definition filesToProcess (library : list LibraryItem.t) (files : list File.t)
    : list File.t :=
  List.filter (fun file => negb (inLibrary library file)) files.

Record Data := {
  store : Db.Store;
  library : list LibraryItem.t;
  processingCount : Z
}.

(** [handleFileProcessing] up to the start of the tasks. *)
Definition handleFileProcessing (files : list File.t) (d : Data) : Data :=
  let chosen := filesToProcess (library d) files in
  if (Z.of_nat (length chosen) =? 0)%Z then d
  else {| store := store d; library := library d;
          processingCount := processingCount d + Z.of_nat (length chosen) |}.

(** One task of [handleFileProcessing], from the library item that
    [createLibraryItem] gave for its file. When [db.addBook] rejects, the
    task throws before the library and the count are updated. *)
Definition fileProcessed (newItem : option LibraryItem.t) (d : Data) : Data :=
  match newItem with
  | Some item =>
      match Db.addBook item (store d) with
      | inr store' =>
          {| store := store'; library := library d ++ [item];
             processingCount := processingCount d - 1 |}
      | inl _ => d
      end
  | None =>
      {| store := store d; library := library d;
         processingCount := processingCount d - 1 |}
  end.

Definition handleDeleteBook (bookId : string) (d : Data) : Data :=
  {| store := Db.deleteBook bookId (store d);
     library :=
       List.filter (fun book => negb (String.eqb (LibraryItem.id book) bookId))
                   (library d);
     processingCount := processingCount d |}.

(** When [db.updateBookTitle] rejects, the handler throws before the
    library is updated. *)
Definition handleSaveTitle (bookId newTitle : string) (d : Data) : Data :=
  match Db.updateBookTitle bookId newTitle (store d) with
  | inr store' =>
      {| store := store';
         library :=
           map (fun book => if String.eqb (LibraryItem.id book) bookId
                            then Db.withTitle newTitle book else book)
               (library d);
         processingCount := processingCount d |}
  | inl _ => d
  end.

(** [loadLibrary] of the first effect. *)
Definition loadLibrary (d : Data) : Data :=
  {| store := store d; library := Db.getBooks (store d);
     processingCount := processingCount d |}.

(** The library shows what the database holds: every record is stored
    under its [id], the library has no two books of one [id], and a book is
    in the library exactly when it is the record stored under its [id]. *)
Definition inSync (d : Data) : Prop :=
  (∀ key book, store d !! key = Some book → LibraryItem.id book = key) ∧
  NoDup (map LibraryItem.id (library d)) ∧
  (∀ book, book ∈ library d ↔ store d !! LibraryItem.id book = Some book).

End App.

(** ** components/WelcomeScreen.tsx *)

Module LibraryView.

Inductive SortOrder := asc | desc.

Section Host.

(** [String.prototype.toLowerCase], [trim] and [localeCompare] of the
    host. *)
Variable toLowerCase : string → string.
Variable trim : string → string.
Variable localeCompare : string → string → Z.

(** [Array.prototype.sort] with a comparator, which is stable. *)
Fixpoint insertBy {A : Type} (compare : A → A → Z) (x : A) (sorted : list A)
    : list A :=
  match sorted with
  | [] => [x]
  | y :: rest =>
      if (compare x y <=? 0)%Z then x :: y :: rest
      else y :: insertBy compare x rest
  end.

Fixpoint sortBy {A : Type} (compare : A → A → Z) (l : list A) : list A :=
  match l with
  | [] => []
  | x :: rest => insertBy compare x (sortBy compare rest)
  end.

Definition matches (searchTerm : string) (book : LibraryItem.t) : bool :=
  Js.includes (toLowerCase searchTerm) (toLowerCase (LibraryItem.title book)).

Definition compareTitles (sortOrder : SortOrder) (a b : LibraryItem.t) : Z :=
  let titleA := toLowerCase (LibraryItem.title a) in
  let titleB := toLowerCase (LibraryItem.title b) in
  match sortOrder with
  | asc => localeCompare titleA titleB
  | desc => localeCompare titleB titleA
  end.

Definition filteredAndSortedLibrary (library : list LibraryItem.t)
    (searchTerm : string) (sortOrder : SortOrder) : list LibraryItem.t :=
  sortBy (compareTitles sortOrder) (List.filter (matches searchTerm) library).

Definition toggleSortOrder (sortOrder : SortOrder) : SortOrder :=
  match sortOrder with
  | asc => desc
  | desc => asc
  end.

(** [handleSave] of a book item: the title that [onSaveTitle] is called
    with, if it is called. *)
Definition handleSave (book : LibraryItem.t) (editedTitle : string)
    : option string :=
  if negb (String.eqb (trim editedTitle) "")
     && negb (String.eqb (trim editedTitle) (LibraryItem.title book))
  then Some (trim editedTitle) else None.

End Host.

End LibraryView.

(** ** contexts/ThemeContext.tsx *)

Module ThemeContext.

(** The provider: the value under the key [theme] of the local storage, and
    the two state hooks. A theme is the string that the storage holds. *)
Record Provider := {
  stored : option string;
  theme : string;
  systemTheme : string
}.

(** [getSystemTheme], and [handleChange], from whether the media query
    [(prefers-color-scheme: dark)] matches. *)
Definition ofMatches (matches : bool) : string :=
  if matches then "dark" else "light".

(** The initial values of the hooks:
    [localStorage.getItem('theme') || 'system']. *)
Definition mount (storage : option string) (matches : bool) : Provider :=
  {| stored := storage;
     theme := match storage with
              | Some value => if String.eqb value "" then "system" else value
              | None => "system"
              end;
     systemTheme := ofMatches matches |}.

Definition resolvedTheme (p : Provider) : string :=
  if String.eqb (theme p) "system" then systemTheme p else theme p.

Definition setTheme (newTheme : string) (p : Provider) : Provider :=
  {| stored := Some newTheme; theme := newTheme; systemTheme := systemTheme p |}.

Definition handleChange (matches : bool) (p : Provider) : Provider :=
  {| stored := stored p; theme := theme p; systemTheme := ofMatches matches |}.

(** The buttons of the theme switcher. *)
Definition options : list string := ["light"; "dark"; "system"].

Inductive Event :=
| OptionClicked (name : string)
| SystemChanged (matches : bool)
| Reloaded (matches : bool).

Definition step (p : Provider) (e : Event) : Provider :=
  match e with
  | OptionClicked name => setTheme name p
  | SystemChanged matches => handleChange matches p
  | Reloaded matches => mount (stored p) matches
  end.

Definition possible (e : Event) : Prop :=
  match e with
  | OptionClicked name => name ∈ options
  | _ => True
  end.

(** The states of the provider, from a storage that holds nothing or the
    name of an option. *)
Inductive reachable : Provider → Prop :=
| reachable_fresh (matches : bool) : reachable (mount None matches)
| reachable_stored (name : string) (matches : bool) :
    name ∈ options → reachable (mount (Some name) matches)
| reachable_step (p : Provider) (e : Event) :
    reachable p → possible e → reachable (step p e).

End ThemeContext.

(** ** components/ReaderView.tsx: what is rendered *)

Module ReaderViewRender.
Import ReaderView.

Inductive ImageStyle :=
| PanelTransform (scale translateX translateY : Q)
| FitToScreen
| Zoomed (scale : Q).

(** [imageStyle]. For a panel of width 0 the program divides by zero and
    the scale is infinite; here it is 0. *)
Definition imageStyle (book : LibraryItem.t) (s : State) : ImageStyle :=
  match
    (if bool_decide (LibraryItem.type book = cbz)
        && bool_decide (viewMode s = panel)
        && (-1 <? currentPanelIndex s)%Z
     then at_index (panels s) (currentPanelIndex s) else None)
  with
  | Some p =>
      PanelTransform
        (1 / (Panel.width p / 100))%Q
        (- (Panel.x p + Panel.width p / 2 - 50))%Q
        (- (Panel.y p + Panel.height p / 2 - 50))%Q
  | None =>
      if isFitToScreen s then FitToScreen else Zoomed (zoom s)
  end.

Inductive Content :=
| Spinner
| ErrorText (message : string)
| ComicImage (currentImage : ComicPage.t) (style : ImageStyle)
| PdfCanvas
| EpubContainer
| Unsupported.

(** [currentImage] *)
Definition currentImage (book : LibraryItem.t) (s : State) : option ComicPage.t :=
  if bool_decide (LibraryItem.type book = cbz)
  then at_index (comicPages s) (currentPageIndex s) else None.

(** [if (error)]: the message, unless it is [null] or the empty string. *)
Definition shownError (s : State) : option string :=
  match error s with
  | Some message => if String.eqb message "" then None else Some message
  | None => None
  end.

(** [renderContent] *)
Definition renderContent (book : LibraryItem.t) (s : State) : Content :=
  if isLoading s then Spinner
  else
    match shownError s with
    | Some message => ErrorText message
    | None =>
        match currentImage book s, LibraryItem.type book with
        | Some image, _ => ComicImage image (imageStyle book s)
        | None, pdf => PdfCanvas
        | None, epub => EpubContainer
        | None, cbz => Unsupported
        end
    end.

(** The page label of the header: the number shown and the total, when
    there is a page. *)
Definition pageLabel (book : LibraryItem.t) (s : State) : option (Z * Z) :=
  if (0 <? totalPages book s)%Z
  then Some (if bool_decide (LibraryItem.type book = epub)
             then currentPageIndex s else currentPageIndex s + 1,
             totalPages book s)
  else None.

(** [disabled] of the two arrow buttons, which are rendered for every type
    but EPUB. *)
Definition prevDisabled (s : State) : bool :=
  (currentPageIndex s =? 0)%Z
  && (negb (bool_decide (viewMode s = panel)) || (currentPanelIndex s <=? 0)%Z).

Definition nextDisabled (book : LibraryItem.t) (s : State) : bool :=
  (currentPageIndex s =? totalPages book s - 1)%Z
  && (negb (bool_decide (viewMode s = panel))
      || (Z.of_nat (length (panels s)) - 1 <=? currentPanelIndex s)%Z).

End ReaderViewRender.

(** ** Bookkeeping of a session *)

Module Bookkeeping.
Import ReaderView.

(** The detection calls of a session are for pages of the document, as are
    the entries of the cache; the panels on display are an entry of the
    cache; the busy flag is set only while a call is in flight; until the
    load has settled there are no calls and no entries. *)
Record invariant (r : Reader) : Prop := {
  calls_of_pages : ∀ p, p ∈ inFlight r → p ∈ comicPages (state r);
  cache_of_pages :
    ∀ id ps, panelsCache (state r) !! id = Some ps →
             ∃ p, p ∈ comicPages (state r) ∧ ComicPage.id p = id;
  panels_cached :
    panels (state r) = [] ∨
    ∃ id, panelsCache (state r) !! id = Some (panels (state r));
  busy_in_flight :
    isPanelDetectionRunning (state r) = true → inFlight r ≠ [];
  loading_quiet :
    isLoading (state r) = true →
    comicPages (state r) = [] ∧ inFlight r = [] ∧ panelsCache (state r) = ∅
}.

End Bookkeeping.

(** * Properties *)

(** ** The detection client *)

Section DetectionClient.
Import GeminiService Spec.

Lemma filterPanels_values (elems : list JSON) :
  forallb (fun p => negb (isNull p)) elems = true →
  filterPanels elems = inr (omap toPanel elems).
Proof.
  induction elems as [|p rest IH]; simpl; [done|].
  intros [Hp Hrest]%andb_prop.
  rewrite (IH Hrest).
  destruct p; simpl in *; try discriminate; done.
Qed.

Lemma filterPanels_null (elems : list JSON) :
  forallb (fun p => negb (isNull p)) elems = false →
  filterPanels elems = inl TypeError_null.
Proof.
  induction elems as [|p rest IH]; simpl; [discriminate|].
  destruct p; simpl; try done; intros H; rewrite (IH H); done.
Qed.

Lemma orFallback_nonempty (valid : list Panel.t) : orFallback valid ≠ [].
Proof. destruct valid; simpl; [unfold fallbackPanel|]; discriminate. Qed.

Lemma positive_length_orFallback (valid : list Panel.t) :
  (if (0 <? Z.of_nat (length valid))%Z then valid else fallbackPanel)
  = orFallback valid.
Proof. destruct valid; reflexivity. Qed.

(** The [try] block on a response whose trimmed text parsed to [v]. *)
Lemma tryBody_parsed (jsonString : string) (v : JSON) :
  jsonString ≠ "" →
  tryBody (Responded jsonString (inr v)) =
    if elementsAreValues v then inr (orFallback (validElements v))
    else inl TypeError_null.
Proof.
  intros Hne. unfold tryBody.
  destruct (String.eqb_spec jsonString "") as [->|_]; [done|].
  destruct v as [| | | |elems|]; try reflexivity.
  destruct elems as [|p rest]; [reflexivity|].
  unfold elementsAreValues, validElements.
  destruct (forallb _ (p :: rest)) eqn:Hall.
  - rewrite (filterPanels_values _ Hall), positive_length_orFallback. done.
  - rewrite (filterPanels_null _ Hall). done.
Qed.

Lemma tryBody_nonempty (r : DetectionResponse) (ps : list Panel.t) :
  tryBody r = inr ps → ps ≠ [].
Proof.
  destruct r as [e|jsonString [e|v]]; [discriminate| |].
  - unfold tryBody. destruct (String.eqb jsonString ""); [|discriminate].
    intros [= <-]. discriminate.
  - destruct (decide (jsonString = "")) as [->|Hne].
    { intros [= <-]. discriminate. }
    rewrite (tryBody_parsed jsonString v Hne).
    destruct (elementsAreValues v); [|discriminate].
    intros [= <-]. apply orFallback_nonempty.
Qed.

Lemma getPanelsForPage_nonempty (r : DetectionResponse) (ps : list Panel.t) :
  getPanelsForPage r = inr ps → ps ≠ [].
Proof.
  unfold getPanelsForPage. destruct (tryBody r) eqn:Hr; [discriminate|].
  intros [= <-]. by apply (tryBody_nonempty r).
Qed.


End DetectionClient.

Section DetectionResponses.
Import GeminiService Spec Scenario.

(** C5, as amended. For a response whose text parses and has no [null]
    among its elements: an empty text, a value that is not an array, an
    empty array and an array without a valid element give the one fallback
    panel; otherwise the client returns the valid elements, in their order.
    A text that does not parse is an error, classified by the [catch]
    block. A returned list is never empty. *)
Theorem getPanelsForPage_validation
    (jsonString : string) (parsed : Js.Completion JSON) :
  let result := getPanelsForPage (Responded jsonString parsed) in
  (jsonString = "" → result = inr fallbackPanel) ∧
  (∀ v, jsonString ≠ "" → parsed = inr v → elementsAreValues v = true →
        result = inr (orFallback (validElements v))) ∧
  (∀ e, jsonString ≠ "" → parsed = inl e → result = inl (catchBlock e)) ∧
  (∀ ps, result = inr ps → ps ≠ []).
Proof.
  cbv zeta. repeat split.
  - intros ->. reflexivity.
  - intros v Hne -> Hvalues. unfold getPanelsForPage.
    rewrite (tryBody_parsed jsonString v Hne), Hvalues. reflexivity.
  - intros e Hne ->. unfold getPanelsForPage, tryBody.
    destruct (String.eqb_spec jsonString ""); [done|reflexivity].
  - intros ps. apply getPanelsForPage_nonempty.
Qed.

Lemma getPanelsForPage_validation_witness :
  getPanelsForPage twoPanels = inr [leftHalf; rightHalf].
Proof.
  unfold twoPanels.
  match goal with
  | |- getPanelsForPage (Responded ?js (inr ?v)) = _ =>
      destruct (getPanelsForPage_validation js (inr v)) as (_ & Hparsed & _);
      apply (Hparsed v)
  end.
  - discriminate.
  - reflexivity.
  - reflexivity.
Defined.

(** C5, as stated, fails: a body that is not JSON, and an array with a
    [null] element, end in the generic error, not in the fallback panel. *)
Lemma unparseable_response_is_an_error :
  getPanelsForPage notJson = inl (Js.Error GENERIC_MESSAGE) ∧
  getPanelsForPage nullElement = inl (Js.Error GENERIC_MESSAGE).
Proof. split; reflexivity. Qed.

End DetectionResponses.

(** ** The controller: single handlers *)

Section Handlers.
Import GeminiService Spec Scenario ReaderView.


Lemma detectionResult_nonempty (run : DetectionRun) (ps : list Panel.t) :
  detectionResult run = inr ps → ps ≠ [].
Proof.
  destruct run as [e|r]; simpl; [discriminate|]. apply getPanelsForPage_nonempty.
Qed.


Lemma settled_with_panels (currentPage : ComicPage.t) (ps : list Panel.t) (s : State) :
  ps ≠ [] →
  handleDetectPanels_settled currentPage (inr ps) s =
    setIsPanelDetectionRunning false
      (setCurrentPanelIndex 0
         (setViewMode panel
            (setPanelsCache (<[ComicPage.id currentPage := ps]> (panelsCache s))
               (setPanels ps s)))).
Proof. destruct ps; [done|reflexivity]. Qed.

Lemma settled_with_error (currentPage : ComicPage.t) (err : Js.Thrown) (s : State) :
  handleDetectPanels_settled currentPage (inl err) s =
    setIsPanelDetectionRunning false
      (setViewMode page
         (setError (Some (message_or err "Could not detect panels for this page.")) s)).
Proof. reflexivity. Qed.

Lemma getPanelsForPage_rejected (e : Js.Thrown) :
  getPanelsForPage (Rejected e) = inl (Js.Error (surfaced e)).
Proof.
  unfold getPanelsForPage, catchBlock, surfaced. simpl.
  by destruct (rateLimited _).
Qed.

Lemma message_or_surfaced (e : Js.Thrown) (fallback : string) :
  message_or (Js.Error (surfaced e)) fallback = surfaced e.
Proof. unfold surfaced. by destruct (rateLimited _). Qed.

(** Detection on a page without a cache entry, from a reader in page view
    that is not busy, with the request refused: the reader is as before but
    for the message. *)
Lemma refused_detection_round_trip (r : Reader) (currentPage : ComicPage.t)
    (s1 : State) (e : Js.Thrown) :
  LibraryItem.type (book r) = cbz →
  isPanelDetectionRunning (state r) = false →
  viewMode (state r) = page →
  inFlight r = [] →
  handleDetectPanels (book r) (state r) = (s1, Some currentPage) →
  state (run r [DetectClicked; DetectionSettled 0 (Requested (Rejected e))])
  = setError (Some (surfaced e)) (state r).
Proof.
  intros Hcbz Hidle Hview Hnone Hstart. simpl.
  rewrite Hcbz, Hidle. simpl. unfold withDetection. rewrite Hstart, Hnone. simpl.
  rewrite getPanelsForPage_rejected, settled_with_error, message_or_surfaced.
  revert Hstart. unfold handleDetectPanels.
  repeat case_match; try discriminate. intros [= <- _].
  destruct (state r). simpl in *. by subst.
Qed.



End Handlers.

(** ** Sessions *)

Section Sessions.
Import GeminiService Spec Scenario ReaderView.

Lemma reachable_run (r : Reader) (events : list Event) :
  reachable r → allPossible r events → reachable (run r events).
Proof.
  revert r. induction events as [|e rest IH]; intros r Hr Hall; [done|].
  destruct Hall as [He Hrest]. apply IH; [|done]. by constructor.
Qed.

Lemma reachable_session (b : LibraryItem.t) (events : list Event) :
  allPossible (mount b) events → reachable (run (mount b) events).
Proof. apply reachable_run. constructor. Qed.




End Sessions.

(** ** Requests and the cache *)

Section Requests.
Import GeminiService Spec Scenario ReaderView.

Lemma handleDetectPanels_cached (b : LibraryItem.t) (s : State)
    (currentPage : ComicPage.t) (cached : list Panel.t) :
  LibraryItem.type b = cbz →
  at_index (comicPages s) (currentPageIndex s) = Some currentPage →
  ComicPage.url currentPage ≠ "" →
  panelsCache s !! ComicPage.id currentPage = Some cached →
  handleDetectPanels b s =
    (setCurrentPanelIndex 0 (setViewMode panel (setPanels cached s)), None).
Proof.
  intros Hcbz Hpage Hurl Hcached. unfold handleDetectPanels.
  rewrite Hcbz, Hpage, Hcached. simpl.
  destruct (comicPages s) as [|p ps] eqn:Hpages.
  { unfold at_index in Hpage. rewrite ?Hpages in Hpage.
    destruct (_ <? _)%Z; [done|]. by rewrite lookup_nil in Hpage. }
  simpl. destruct (String.eqb_spec (ComicPage.url currentPage) ""); done.
Qed.

(** What [handleDetectPanels] captures is a page without a cache entry, and
    it leaves the cache as it is. *)
Lemma handleDetectPanels_captures (b : LibraryItem.t) (s : State) :
  panelsCache (handleDetectPanels b s).1 = panelsCache s ∧
  ∀ currentPage, (handleDetectPanels b s).2 = Some currentPage →
                 panelsCache s !! ComicPage.id currentPage = None.
Proof.
  unfold handleDetectPanels.
  repeat case_match; simpl; split; try done.
  by intros ? [= <-].
Qed.

Lemma panelViewClicked_captures (b : LibraryItem.t) (s : State) :
  panelsCache (panelViewClicked b s).1 = panelsCache s ∧
  ∀ currentPage, (panelViewClicked b s).2 = Some currentPage →
                 panelsCache s !! ComicPage.id currentPage = None.
Proof.
  unfold panelViewClicked. case_match; [done|]. apply handleDetectPanels_captures.
Qed.

Lemma turnPage_cache (b : LibraryItem.t) (delta : Z) (s : State) :
  panelsCache (turnPage b delta s) = panelsCache s.
Proof. unfold turnPage. by case_match. Qed.

Lemma app_singleton_neq {A : Type} (l : list A) (x : A) : l ≠ (l ++ [x])%list.
Proof.
  intros H. apply (f_equal length) in H. rewrite length_app in H. simpl in H. lia.
Qed.

Lemma delete_neq_snoc {A : Type} (l : list A) (k : nat) (x y : A) :
  l !! k = Some y → delete k l ≠ (l ++ [x])%list.
Proof.
  intros Hk H. apply (f_equal length) in H.
  rewrite length_app in H. simpl in H.
  pose proof (length_delete l k (mk_is_Some _ _ Hk)). lia.
Qed.

(** The cache of a session only grows. *)
Lemma cache_entries_stay (r : Reader) (e : Event) (id : string) :
  is_Some (panelsCache (state r) !! id) →
  is_Some (panelsCache (state (step r e)) !! id).
Proof.
  intros Hsome. destruct e; simpl.
  - unfold loadBook_settled. repeat case_match; simpl; done.
  - unfold goToNext. repeat case_match; simpl; rewrite ?turnPage_cache; done.
  - unfold goToPrev. repeat case_match; simpl; rewrite ?turnPage_cache; done.
  - case_match; simpl; [|done].
    by rewrite (proj1 (handleDetectPanels_captures _ _)).
  - case_match; simpl; done.
  - case_match; simpl; [|done].
    by rewrite (proj1 (panelViewClicked_captures _ _)).
  - destruct (inFlight r !! k) as [currentPage|] eqn:Hk; simpl; [|done].
    unfold handleDetectPanels_settled.
    destruct (detectionResult outcome) as [err|[|q ps]]; simpl; [done|done|].
    destruct (decide (ComicPage.id currentPage = id)) as [->|Hne].
    + rewrite lookup_insert_eq. by eexists.
    + by rewrite lookup_insert_ne.
  - unfold handleZoom. case_match; simpl; done.
  - case_match; simpl; done.
  - unfold toggleFitToScreen. repeat case_match; simpl; done.
Qed.

(** No call is started when the list of calls in flight is not extended. *)
Ltac nothing_started :=
  let Heq := fresh "Heq" in
  intros Heq; by apply app_singleton_neq in Heq.

(** A detection call is started for a page without a cache entry only. *)
Lemma started_for_uncached (r : Reader) (e : Event) (currentPage : ComicPage.t) :
  inFlight (step r e) = (inFlight r ++ [currentPage])%list →
  panelsCache (state r) !! ComicPage.id currentPage = None.
Proof.
  destruct e; simpl.
  - case_match; simpl; nothing_started.
  - nothing_started.
  - nothing_started.
  - case_match; simpl; [|nothing_started].
    destruct (handleDetectPanels_captures (book r) (state r)) as [_ Hcap].
    destruct (handleDetectPanels (book r) (state r)).2 as [p|] eqn:Hp; simpl.
    + intros [= <-]%app_inv_head. by apply Hcap.
    + nothing_started.
  - case_match; simpl; nothing_started.
  - case_match; simpl; [|nothing_started].
    destruct (panelViewClicked_captures (book r) (state r)) as [_ Hcap].
    destruct (panelViewClicked (book r) (state r)).2 as [p|] eqn:Hp; simpl.
    + intros [= <-]%app_inv_head. by apply Hcap.
    + nothing_started.
  - destruct (inFlight r !! k) as [p|] eqn:Hk; simpl.
    + intros Heq. by apply delete_neq_snoc with (y := p) in Heq.
    + nothing_started.
  - case_match; simpl; nothing_started.
  - case_match; simpl; nothing_started.
  - case_match; simpl; nothing_started.
Qed.

(** C7, as amended. For a page with a cache entry [handleDetectPanels]
    starts no call and sends no request: it shows the cached panels in panel
    view from the first one. An entry of the cache stays for the rest of
    the session, and a call is started only for a page without an entry; so
    no call is started for a page once a request for it has succeeded. A
    request that failed or has not settled leaves no entry, and detection
    on its page starts a call again. *)
Theorem cached_page_is_not_requested (r : Reader) :
  (∀ currentPage cached,
     LibraryItem.type (book r) = cbz →
     at_index (comicPages (state r)) (currentPageIndex (state r)) = Some currentPage →
     ComicPage.url currentPage ≠ "" →
     panelsCache (state r) !! ComicPage.id currentPage = Some cached →
     handleDetectPanels (book r) (state r) =
       (setCurrentPanelIndex 0 (setViewMode panel (setPanels cached (state r))), None) ∧
     inFlight (step r DetectClicked) = inFlight r ∧
     requestLog (step r DetectClicked) = requestLog r ∧
     (isPanelDetectionRunning (state r) = false →
      state (step r DetectClicked) =
        setCurrentPanelIndex 0 (setViewMode panel (setPanels cached (state r))))) ∧
  (∀ e id, is_Some (panelsCache (state r) !! id) →
           is_Some (panelsCache (state (step r e)) !! id)) ∧
  (∀ e currentPage, inFlight (step r e) = (inFlight r ++ [currentPage])%list →
                    panelsCache (state r) !! ComicPage.id currentPage = None).
Proof.
  split; [|split].
  - intros currentPage cached Hcbz Hpage Hurl Hcached.
    pose proof (handleDetectPanels_cached _ _ _ _ Hcbz Hpage Hurl Hcached) as Hhit.
    split; [exact Hhit|].
    unfold step. rewrite Hcbz. simpl.
    destruct (isPanelDetectionRunning (state r)); simpl.
    + repeat split. discriminate.
    + unfold withDetection. rewrite Hhit. simpl. done.
  - intros e id. apply cache_entries_stay.
  - intros e currentPage. apply started_for_uncached.
Qed.

Lemma cached_page_is_not_requested_witness :
  let r := step backInPageView DetectClicked in
  inFlight r = [] ∧ requestLog r = ["01.png"] ∧
  viewMode (state r) = panel ∧ currentPanelIndex (state r) = 0 ∧
  panels (state r) = [leftHalf; rightHalf].
Proof.
  cbv zeta.
  destruct (cached_page_is_not_requested backInPageView) as (Hhit & _ & _).
  destruct (Hhit page1 [leftHalf; rightHalf]) as (_ & Hflight & Hlog & Hstate).
  - reflexivity.
  - reflexivity.
  - discriminate.
  - reflexivity.
  - rewrite Hflight, Hlog, (Hstate eq_refl). repeat split.
Defined.

(** C7, as stated, fails: a request that is refused leaves no cache entry,
    and detection on the same page sends a second request; the cache is not
    cleared in between. *)
Lemma refused_request_is_sent_again :
  reachable retried ∧ requestLog retried = ["01.png"; "01.png"].
Proof.
  split; [|reflexivity]. apply reachable_session. simpl. done.
Qed.

End Requests.

(** ** Zoom *)

Section Zoom.
Import Scenario ReaderView.

Lemma zoom_bounds_ordered : (MIN_ZOOM <= MAX_ZOOM)%Q.
Proof. discriminate. Qed.

(** [Math.max(MIN_ZOOM, Math.min(MAX_ZOOM, z))] inside, above and below the
    interval. *)
Lemma clamp_inside (z : Q) :
  (MIN_ZOOM <= z)%Q → (z <= MAX_ZOOM)%Q →
  (Qmax MIN_ZOOM (Qmin MAX_ZOOM z) == z)%Q.
Proof.
  intros Hlo Hhi.
  transitivity (Qmin MAX_ZOOM z).
  - apply Q.max_r. rewrite (Q.min_r _ _ Hhi). exact Hlo.
  - apply Q.min_r. exact Hhi.
Qed.
Lemma clamp_above (z : Q) :
  (MAX_ZOOM <= z)%Q → (Qmax MIN_ZOOM (Qmin MAX_ZOOM z) == MAX_ZOOM)%Q.
Proof.
  intros Hhi.
  transitivity (Qmin MAX_ZOOM z).
  - apply Q.max_r. rewrite (Q.min_l _ _ Hhi). discriminate.
  - apply Q.min_l. exact Hhi.
Qed.
Lemma clamp_below (z : Q) :
  (z <= MIN_ZOOM)%Q → (Qmax MIN_ZOOM (Qmin MAX_ZOOM z) == MIN_ZOOM)%Q.
Proof.
  intros Hlo. apply Q.max_l.
  apply Qle_trans with z; [apply Q.le_min_r|exact Hlo].
Qed.
(** A multiple of 1/4 between 1/4 and 5 stays one under [handleZoom]. *)
Lemma quarter_step (k : Z) (z : Q) (direction : Direction) :
  1 <= k <= 20 → (z == inject_Z k * (1 # 4))%Q →
  ∃ k' : Z, 1 <= k' <= 20 ∧
    (Qmax MIN_ZOOM (Qmin MAX_ZOOM
       match direction with
       | zoomIn => z + ZOOM_STEP
       | zoomOut => z - ZOOM_STEP
       end) == inject_Z k' * (1 # 4))%Q.
Proof.
  intros Hk Hz.
  destruct direction.
  - destruct (Z.eq_dec k 20) as [->|Hne].
    + exists 20. split; [lia|]. rewrite clamp_above; [reflexivity|].
      unfold MAX_ZOOM, ZOOM_STEP. rewrite Hz. discriminate.
    + exists (k + 1). split; [lia|].
      assert (1 <= inject_Z k)%Q
        by (change 1%Q with (inject_Z 1); rewrite <- Zle_Qle; lia).
      assert (inject_Z k <= 19)%Q
        by (change 19%Q with (inject_Z 19); rewrite <- Zle_Qle; lia).
      rewrite clamp_inside; unfold MIN_ZOOM, MAX_ZOOM, ZOOM_STEP;
        rewrite ?Hz, ?inject_Z_plus; change (inject_Z 1) with 1%Q; lra.
  - destruct (Z.eq_dec k 1) as [->|Hne].
    + exists 1. split; [lia|]. rewrite clamp_below; [reflexivity|].
      unfold MIN_ZOOM, ZOOM_STEP. rewrite Hz. discriminate.
    + exists (k - 1). split; [lia|].
      assert (2 <= inject_Z k)%Q
        by (change 2%Q with (inject_Z 2); rewrite <- Zle_Qle; lia).
      assert (inject_Z k <= 20)%Q
        by (change 20%Q with (inject_Z 20); rewrite <- Zle_Qle; lia).
      rewrite clamp_inside; unfold MIN_ZOOM, MAX_ZOOM, ZOOM_STEP;
        rewrite ?Hz; replace (k - 1) with (k + -1) by lia;
        rewrite ?inject_Z_plus; change (inject_Z (-1)) with ((-1) # 1)%Q; lra.
Qed.

Lemma handleZoom_in_range (direction : Direction) (s : State) :
  (MIN_ZOOM <= zoom (handleZoom direction s) <= MAX_ZOOM)%Q.
Proof.
  unfold handleZoom. simpl. split.
  - apply Q.le_max_l.
  - apply Q.max_lub; [apply zoom_bounds_ordered|apply Q.le_min_l].
Qed.

Lemma zooms_in_range (directions : list Direction) (s : State) :
  (MIN_ZOOM <= zoom s <= MAX_ZOOM)%Q →
  (MIN_ZOOM <= zoom (foldl (fun s' d => handleZoom d s') s directions) <= MAX_ZOOM)%Q.
Proof.
  revert s. induction directions as [|d rest IH]; intros s Hs; [done|].
  simpl. apply IH, handleZoom_in_range.
Qed.

(** C9. [handleZoom] turns fit-to-screen off and leaves the zoom between
    0.25 and 5. From a zoom in that interval, zooming in adds 0.25 unless
    that exceeds 5, which is then the result; zooming out takes 0.25 away
    unless that falls below 0.25, which is then the result. So the zoom
    stays in the interval under any sequence of zoom operations. *)
Theorem handleZoom_steps_and_clamps (direction : Direction) (s : State) :
  let s' := handleZoom direction s in
  isFitToScreen s' = false ∧
  (MIN_ZOOM <= zoom s' <= MAX_ZOOM)%Q ∧
  ((MIN_ZOOM <= zoom s <= MAX_ZOOM)%Q →
   match direction with
   | zoomIn =>
       ((zoom s + ZOOM_STEP <= MAX_ZOOM)%Q → (zoom s' == zoom s + ZOOM_STEP)%Q) ∧
       ((MAX_ZOOM <= zoom s + ZOOM_STEP)%Q → (zoom s' == MAX_ZOOM)%Q)
   | zoomOut =>
       ((MIN_ZOOM <= zoom s - ZOOM_STEP)%Q → (zoom s' == zoom s - ZOOM_STEP)%Q) ∧
       ((zoom s - ZOOM_STEP <= MIN_ZOOM)%Q → (zoom s' == MIN_ZOOM)%Q)
   end) ∧
  (∀ directions,
     (MIN_ZOOM <= zoom s <= MAX_ZOOM)%Q →
     (MIN_ZOOM <= zoom (foldl (fun s' d => handleZoom d s') s directions)
      <= MAX_ZOOM)%Q).
Proof.
  cbv zeta. split; [reflexivity|]. split; [apply handleZoom_in_range|].
  split; [|intros directions; apply zooms_in_range].
  intros [Hlo Hhi]. unfold MIN_ZOOM, MAX_ZOOM, ZOOM_STEP in *.
  destruct direction; simpl; unfold MIN_ZOOM, MAX_ZOOM, ZOOM_STEP; split; intros Hstep.
  - rewrite Q.min_r by done. rewrite Q.max_r by lra. reflexivity.
  - rewrite Q.min_l by done. rewrite Q.max_r by lra. reflexivity.
  - rewrite Q.min_r by lra. rewrite Q.max_r by done. reflexivity.
  - rewrite Q.min_r by lra. rewrite Q.max_l by done. reflexivity.
Qed.

Lemma handleZoom_steps_and_clamps_witness :
  (zoom (handleZoom zoomIn (state (mount comicBook))) == 5 # 4)%Q ∧
  (zoom (handleZoom zoomOut (setZoom (1 # 4) (state (mount comicBook)))) == 1 # 4)%Q ∧
  (MIN_ZOOM <=
   zoom (foldl (fun s' d => handleZoom d s') (state (mount comicBook))
               [zoomIn; zoomIn; zoomOut])
   <= MAX_ZOOM)%Q.
Proof.
  split; [|split].
  - destruct (handleZoom_steps_and_clamps zoomIn (state (mount comicBook)))
      as (_ & _ & Hstep & _).
    destruct Hstep as [Hin _]; [split; discriminate|].
    rewrite Hin; [reflexivity|discriminate].
  - destruct (handleZoom_steps_and_clamps zoomOut
                (setZoom (1 # 4) (state (mount comicBook))))
      as (_ & _ & Hstep & _).
    destruct Hstep as [_ Hout]; [split; discriminate|].
    rewrite Hout; [reflexivity|discriminate].
  - destruct (handleZoom_steps_and_clamps zoomIn (state (mount comicBook)))
      as (_ & _ & _ & Hall).
    apply (Hall [zoomIn; zoomIn; zoomOut]). split; discriminate.
Defined.

End Zoom.

(** ** The invariant of a session *)

Section SessionInvariant.
Import GeminiService Spec Scenario ReaderView Session.

(** The tests of the handlers, as propositions. *)
Ltac tests :=
  repeat match goal with
  | H : (_ <? _)%Z = true |- _ => apply Z.ltb_lt in H
  | H : (_ <? _)%Z = false |- _ => apply Z.ltb_ge in H
  | H : (_ =? _)%Z = true |- _ => apply Z.eqb_eq in H
  | H : (_ =? _)%Z = false |- _ => apply Z.eqb_neq in H
  | H : (_ && _) = true |- _ => apply andb_prop in H; destruct H
  | H : (_ && _) = false |- _ => apply andb_false_iff in H; destruct H
  | H : (_ || _) = false |- _ => apply orb_false_elim in H; destruct H
  | H : (_ || _) = true |- _ => apply orb_prop in H; destruct H
  | H : negb _ = true |- _ => apply negb_true_iff in H
  | H : negb _ = false |- _ => apply negb_false_iff in H
  | H : bool_decide _ = true |- _ => apply bool_decide_eq_true_1 in H
  | H : bool_decide _ = false |- _ => apply bool_decide_eq_false_1 in H
  end.

(** One goal for each path through a handler. *)
Ltac paths :=
  repeat case_match; tests; unfold totalPages in *; simpl in *;
  repeat case_match; tests.

Ltac close :=
  try (simplify_eq/=; try done; try lia; try congruence;
       try (intuition (try lia; try congruence; eauto; fail)); fail).

Lemma invariant_mount (b : LibraryItem.t) : invariant (mount b).
Proof.
  split; simpl; try done; try lia.
  exists 4. split; [lia|reflexivity].
Qed.

Lemma invariant_next (r : Reader) : invariant r → invariant (step r Next).
Proof.
  intros [Hlo Hup Hpl Hpr Hpc Hcc Hld Hcn Hfz Hzq].
  unfold pageCount, totalPages in *.
  split; unfold pageCount, totalPages, step, withState, goToNext, turnPage; simpl.
  all: paths.
  all: close.
Qed.

Lemma invariant_prev (r : Reader) : invariant r → invariant (step r Prev).
Proof.
  intros [Hlo Hup Hpl Hpr Hpc Hcc Hld Hcn Hfz Hzq].
  unfold pageCount, totalPages in *.
  split; unfold pageCount, totalPages, step, withState, goToPrev, turnPage; simpl.
  all: paths.
  all: close.
Qed.


(** The settled load finds the reader on page 0 of no pages, or of the
    pages that the library item of a PDF counts. *)
Lemma invariant_load (r : Reader) (res : Js.Completion Loaded) :
  invariant r → loadedFits (book r) res →
  invariant (step r (LoadSettled res)).
Proof.
  intros Hinv Hfits.
  unfold step. destruct (isLoading (state r)) eqn:Hloading; [|exact Hinv].
  destruct Hinv as [Hlo Hup Hpl Hpr Hpc Hcc Hld Hcn Hfz Hzq].
  destruct (Hld Hloading) as (Hpages & Hpdf & Hepub).
  unfold pageCount, totalPages, loadedFits in *.
  rewrite Hpages, Hpdf, Hepub in Hup.
  split; unfold pageCount, totalPages, withState, loadBook_settled; simpl.
  all: paths.
  all: close.
Qed.

(** Handlers that touch the view mode, the zoom or fit only. *)
Lemma invariant_simple (r : Reader) (e : Event) :
  match e with
  | PageViewClicked | ZoomLabelClicked | FitClicked => True
  | _ => False
  end →
  invariant r → invariant (step r e).
Proof.
  intros He [Hlo Hup Hpl Hpr Hpc Hcc Hld Hcn Hfz Hzq].
  unfold pageCount, totalPages in *.
  destruct e; try done.
  all: split; unfold pageCount, totalPages, step, withState, pageViewClicked,
         zoomLabelClicked, toggleFitToScreen; simpl.
  all: paths.
  all: close.
  all: try (exists 4; split; [lia|reflexivity]).
Qed.

(** A cached list is not empty, so its first panel exists. *)
Lemma invariant_detect (r : Reader) (e : Event) :
  match e with
  | DetectClicked | PanelViewClicked => True
  | _ => False
  end →
  invariant r → invariant (step r e).
Proof.
  intros He [Hlo Hup Hpl Hpr Hpc Hcc Hld Hcn Hfz Hzq].
  unfold pageCount, totalPages in *.
  destruct e; try done.
  all: split; unfold pageCount, totalPages, step, withState, withDetection,
         panelViewClicked, handleDetectPanels; simpl.
  all: paths.
  all: close.
  all: match goal with
       | H : panelsCache _ !! _ = Some ?l |- _ =>
           pose proof (Hcn _ _ H); destruct l; [done|simpl; lia]
       end.
Qed.

(** A detection settles for a comic only, and with a list that is not
    empty when it succeeds. *)
Lemma invariant_settled (r : Reader) (k : nat) (outcome : DetectionRun) :
  invariant r → invariant (step r (DetectionSettled k outcome)).
Proof.
  intros Hinv. unfold step.
  destruct (inFlight r !! k) as [currentPage|] eqn:Hk; [|exact Hinv].
  assert (LibraryItem.type (book r) = cbz) as Hcbz.
  { apply (calls_cbz r Hinv). intros Hnil. by rewrite Hnil, lookup_nil in Hk. }
  destruct Hinv as [Hlo Hup Hpl Hpr Hpc Hcc Hld Hcn Hfz Hzq].
  unfold pageCount, totalPages in *.
  destruct (detectionResult outcome) as [err|ps] eqn:Hrun.
  - rewrite settled_with_error.
    split; unfold pageCount, totalPages; simpl; paths; close.
  - pose proof (detectionResult_nonempty _ _ Hrun) as Hps.
    rewrite settled_with_panels by done.
    split; unfold pageCount, totalPages; simpl; paths; close.
    + intros _. destruct ps; [done|simpl; lia].
    + intros id qs. destruct (decide (ComicPage.id currentPage = id)) as [->|Hne].
      * rewrite lookup_insert_eq. by intros [= <-].
      * rewrite lookup_insert_ne by done. apply Hcn.
Qed.

Lemma invariant_zoom (r : Reader) (direction : Direction) :
  invariant r → invariant (step r (ZoomClicked direction)).
Proof.
  intros [Hlo Hup Hpl Hpr Hpc Hcc Hld Hcn Hfz Hzq].
  unfold pageCount, totalPages in *.
  split; unfold pageCount, totalPages, step, withState; simpl.
  all: paths.
  all: close.
  all: destruct Hzq as (k & Hk & Hz);
    first [by apply (quarter_step k _ zoomIn)|by apply (quarter_step k _ zoomOut)].
Qed.

Lemma invariant_step (r : Reader) (e : Event) :
  invariant r → possible r e → invariant (step r e).
Proof.
  intros Hinv Hpossible. destruct e.
  - by apply invariant_load.
  - by apply invariant_next.
  - by apply invariant_prev.
  - by apply invariant_detect.
  - by apply invariant_simple.
  - by apply invariant_detect.
  - by apply invariant_settled.
  - by apply invariant_zoom.
  - by apply invariant_simple.
  - by apply invariant_simple.
Qed.

Lemma reachable_invariant (r : Reader) : reachable r → invariant r.
Proof.
  induction 1 as [b|r e _ IH Hpossible].
  - apply invariant_mount.
  - by apply invariant_step.
Qed.

End SessionInvariant.

(** ** Navigation *)

Section Navigation.
Import Scenario ReaderView Session.

Lemma withState_same (r : Reader) : withState r (state r) = r.
Proof. by destruct r. Qed.

(** C8. In page view the next-page operation on the last page and the
    previous-page operation on the first page leave the reader as it is.
    In panel view, on the last panel of a page that is not the last one,
    the next-page operation goes to the next page, in page view, with the
    panel index at -1; this holds in every state of a session, and for any
    state of a book that is not an EPUB. *)
Theorem navigation_at_the_boundaries (r : Reader) :
  let s := state r in
  (viewMode s = page → currentPageIndex s = pageCount r - 1 →
   step r Next = r) ∧
  (viewMode s = page → currentPageIndex s = 0 →
   step r Prev = r) ∧
  (viewMode s = panel →
   currentPanelIndex s = Z.of_nat (length (panels s)) - 1 →
   currentPageIndex s < pageCount r - 1 →
   reachable r ∨ LibraryItem.type (book r) ≠ epub →
   currentPageIndex (state (step r Next)) = currentPageIndex s + 1 ∧
   currentPanelIndex (state (step r Next)) = -1 ∧
   viewMode (state (step r Next)) = page).
Proof.
  cbv zeta. unfold pageCount. split; [|split].
  - intros Hview Hlast. simpl. unfold goToNext. rewrite Hview. simpl.
    destruct (Z.ltb_spec (currentPageIndex (state r))
                         (totalPages (book r) (state r) - 1)); [lia|].
    apply withState_same.
  - intros Hview Hfirst. simpl. unfold goToPrev. rewrite Hview, Hfirst. simpl.
    apply withState_same.
  - intros Hview Hpanel Hpage Hcomic.
    assert (LibraryItem.type (book r) ≠ epub) as Htype.
    { destruct Hcomic as [Hr|Hne]; [|done].
      rewrite (panel_cbz r (reachable_invariant r Hr) Hview). discriminate. }
    simpl. unfold goToNext. rewrite Hview, Hpanel. simpl.
    rewrite Z.ltb_irrefl.
    destruct (Z.ltb_spec (currentPageIndex (state r))
                         (totalPages (book r) (state r) - 1)); [|lia].
    unfold turnPage. rewrite bool_decide_eq_true_2 by done. done.
Qed.

Lemma navigation_at_the_boundaries_witness :
  step onLastPage Next = onLastPage ∧
  step (mount comicBook) Prev = mount comicBook ∧
  currentPageIndex (state (step onSecondPanel Next)) = 1 ∧
  currentPanelIndex (state (step onSecondPanel Next)) = -1 ∧
  viewMode (state (step onSecondPanel Next)) = page.
Proof.
  split; [|split].
  - destruct (navigation_at_the_boundaries onLastPage) as (Hlast & _ & _).
    apply Hlast; reflexivity.
  - destruct (navigation_at_the_boundaries (mount comicBook)) as (_ & Hfirst & _).
    apply Hfirst; reflexivity.
  - destruct (navigation_at_the_boundaries onSecondPanel) as (_ & _ & Hpanel).
    apply Hpanel; [reflexivity|reflexivity|reflexivity|].
    left. apply reachable_session. simpl. done.
Defined.

End Navigation.

(** ** Navigation state of a session *)

Section NavigationState.
Import GeminiService Spec Scenario ReaderView Session.

(** C1, as amended. In every state that a session reaches from mounting
    the reader for a book, by the settled load, the arrow keys, the
    detection, page-view and panel-view buttons, settled detections, the
    zoom buttons, the zoom label and the fit button: the page index is not
    negative, it is below the page count when there is a page and 0 when
    there is none; in panel view the panel index is an index of the panel
    list, and a panel index of -1 occurs in page view only. *)
Theorem session_navigation_state (r : Reader) :
  reachable r →
  0 <= currentPageIndex (state r) ∧
  (0 < pageCount r → currentPageIndex (state r) < pageCount r) ∧
  (pageCount r <= 0 → currentPageIndex (state r) = 0) ∧
  (viewMode (state r) = panel →
   0 <= currentPanelIndex (state r) < Z.of_nat (length (panels (state r)))) ∧
  (currentPanelIndex (state r) = -1 → viewMode (state r) = page).
Proof.
  intros Hr. destruct (reachable_invariant r Hr)
    as [Hlo Hup _ Hrange _ _ _ _ _ _].
  repeat split; try lia.
  - by apply Hrange.
  - by apply Hrange.
  - intros Hindex. destruct (viewMode (state r)) eqn:Hview; [done|].
    specialize (Hrange eq_refl). lia.
Qed.

Lemma session_navigation_state_witness :
  currentPageIndex (state onSecondPanel) < pageCount onSecondPanel ∧
  0 <= currentPanelIndex (state onSecondPanel)
    < Z.of_nat (length (panels (state onSecondPanel))).
Proof.
  destruct (session_navigation_state onSecondPanel) as (_ & Hpage & _ & Hpanel & _).
  - apply reachable_session. simpl. done.
  - split; [apply Hpage; reflexivity|apply Hpanel; reflexivity].
Defined.

(** C1, as stated, fails. When an archive without images is opened the
    page index 0 is not below the page count 0. When the panel view is
    asked for twice before a response arrives, the first request succeeds
    and the second is refused, the reader is in page view with the panel
    index 0. *)
Lemma navigation_invariant_fails :
  (reachable emptyArchiveOpened ∧
   ¬ (0 <= currentPageIndex (state emptyArchiveOpened)
      < pageCount emptyArchiveOpened)) ∧
  (reachable secondRequestRefused ∧
   ¬ (viewMode (state secondRequestRefused) = page
      ↔ currentPanelIndex (state secondRequestRefused) = -1)).
Proof.
  split; split.
  - apply reachable_session. simpl. done.
  - vm_compute. intros [_ H]. discriminate.
  - apply reachable_session. simpl. done.
  - intros [H _]. specialize (H eq_refl). vm_compute in H. discriminate.
Qed.

(** C4, as amended. [toggleFitToScreen] flips fit-to-screen. When the flip
    turns it on, the zoom is set to 1; when the flip turns it off, the zoom
    is left as it is, which in a session is 1. *)
Theorem toggleFitToScreen_zoom (r : Reader) :
  let s := state r in
  let s' := toggleFitToScreen s in
  isFitToScreen s' = negb (isFitToScreen s) ∧
  (isFitToScreen s = false → zoom s' = 1%Q) ∧
  (isFitToScreen s = true → zoom s' = zoom s) ∧
  (reachable r → isFitToScreen s = true → zoom s' = 1%Q).
Proof.
  cbv zeta. unfold toggleFitToScreen.
  destruct (isFitToScreen (state r)) eqn:Hfit; simpl; repeat split; try done.
  intros Hr _. by apply (fit_zoom r (reachable_invariant r Hr)).
Qed.

Lemma toggleFitToScreen_zoom_witness :
  zoom (toggleFitToScreen (state zoomedIn)) = 1%Q ∧
  zoom (toggleFitToScreen (state (mount comicBook))) = 1%Q.
Proof.
  split.
  - destruct (toggleFitToScreen_zoom zoomedIn) as (_ & Hon & _).
    apply Hon. reflexivity.
  - destruct (toggleFitToScreen_zoom (mount comicBook)) as (_ & _ & _ & Hoff).
    apply Hoff; [constructor|reflexivity].
Defined.

(** C4, as stated, fails: after zooming in once the zoom is 1.25 and fit
    is off; the fit button turns fit on and the zoom is 1, not 1.25. *)
Lemma fit_turned_on_resets_the_zoom :
  reachable zoomedIn ∧
  isFitToScreen (state zoomedIn) = false ∧
  (zoom (state zoomedIn) == 5 # 4)%Q ∧
  isFitToScreen (state (step zoomedIn FitClicked)) = true ∧
  (zoom (state (step zoomedIn FitClicked)) == 1)%Q ∧
  ¬ (zoom (state (step zoomedIn FitClicked)) == zoom (state zoomedIn))%Q.
Proof.
  split; [apply reachable_session; simpl; done|].
  repeat split; discriminate.
Qed.

Lemma loadBook_resets (s : State) :
  currentPageIndex (loadBook s) = 0 ∧
  viewMode (loadBook s) = page ∧
  zoom (loadBook s) = 1%Q ∧
  isFitToScreen (loadBook s) = true ∧
  panelsCache (loadBook s) = ∅ ∧
  panels (loadBook s) = [] ∧
  currentPanelIndex (loadBook s) = currentPanelIndex s.
Proof. repeat split. Qed.


End NavigationState.

(** ** Comic archives *)

Section Archives.
Import Scenario ReaderView BookService.

Variable localeCompare : string → string → Z.

Lemma insertSorted_Permutation (f : JSZipObject.t) (sorted : JSZip) :
  insertSorted localeCompare f sorted ≡ₚ f :: sorted.
Proof.
  induction sorted as [|g rest IH]; simpl; [done|].
  case_match; [done|]. rewrite IH. apply Permutation_swap.
Qed.

(** Sorting keeps the entries. *)
Lemma sort_Permutation (files : JSZip) : sort localeCompare files ≡ₚ files.
Proof.
  induction files as [|f rest IH]; simpl; [done|].
  by rewrite insertSorted_Permutation, IH.
Qed.

Lemma length_getSortedImageFiles (zip : JSZip) :
  length (getSortedImageFiles localeCompare zip) =
  length (List.filter
            (fun f => negb (JSZipObject.dir f) && isImageName (JSZipObject.name f))
            zip).
Proof. unfold getSortedImageFiles. by rewrite sort_Permutation. Qed.

Lemma pages_of_decoded (files : JSZip) :
  map ComicPage.id (omap toComicPage files) =
  map JSZipObject.name (filter (fun f => is_Some (JSZipObject.image f)) files).
Proof.
  induction files as [|f rest IH]; [done|].
  rewrite filter_cons. simpl. unfold toComicPage at 1.
  case_decide as Himage.
  - destruct Himage as [[[url w] h] ->]. simpl. by rewrite <- IH.
  - destruct (JSZipObject.image f); [|exact IH].
    exfalso. apply Himage. by eexists.
Qed.

Lemma omap_toComicPage_cons (f : JSZipObject.t) (rest : JSZip) :
  omap toComicPage (f :: rest) =
  match toComicPage f with
  | Some p => p :: omap toComicPage rest
  | None => omap toComicPage rest
  end.
Proof. reflexivity. Qed.

Lemma pages_sublist (files : JSZip) :
  sublist (map ComicPage.id (omap toComicPage files)) (map JSZipObject.name files).
Proof.
  induction files as [|f rest IH]; simpl; [constructor|].
  unfold toComicPage at 1.
  destruct (JSZipObject.image f) as [[[url w] h]|]; simpl.
  - by apply sublist_skip.
  - by apply sublist_cons.
Qed.

Lemma pages_length (files : JSZip) :
  (length (omap toComicPage files) <= length files)%nat.
Proof.
  induction files as [|f rest IH]; [done|].
  rewrite omap_toComicPage_cons. destruct (toComicPage f); simpl; lia.
Qed.

Lemma pages_length_undecodable (files : JSZip) (f : JSZipObject.t) :
  f ∈ files → JSZipObject.image f = None →
  (length (omap toComicPage files) < length files)%nat.
Proof.
  intros Hin Hnone.
  induction Hin as [f rest|f g rest Hin IH]; rewrite omap_toComicPage_cons.
  - unfold toComicPage at 1. rewrite Hnone. pose proof (pages_length rest).
    simpl. lia.
  - specialize (IH Hnone). destruct (toComicPage g); simpl; lia.
Qed.

Lemma createLibraryItem_comic (file : File.t) (zip : JSZip) (item : LibraryItem.t) :
  File.archive file = Some zip →
  createLibraryItem localeCompare file = Some item →
  LibraryItem.type item = cbz →
  LibraryItem.totalPages item =
    Z.of_nat (length (getSortedImageFiles localeCompare zip)).
Proof.
  intros Harchive Hitem Htype. unfold createLibraryItem in Hitem.
  destruct (typeOfExtension _) as [type|]; [|done]. simpl in Hitem.
  destruct (coverAndPages localeCompare type file) as [[coverUrl total]|] eqn:Hcover;
    [|done].
  simpl in Hitem. injection Hitem as <-. simpl in *. subst type.
  unfold coverAndPages in Hcover. rewrite Harchive in Hcover. simpl in Hcover.
  destruct (getComicCover localeCompare zip); [|done].
  simpl in Hcover. by injection Hcover as _ <-.
Qed.

(** C10. A library item made from a comic archive records as its number of
    pages the number of entries that are not directories and have an image
    name. Opening it gives a page for every such entry that decodes, in
    the sorted order of the entries; so the page count of the session is at
    most the recorded number, and smaller when an entry does not decode. *)
Theorem undecodable_entries_are_dropped (file : File.t) (zip : JSZip)
    (item : LibraryItem.t) :
  File.archive file = Some zip →
  createLibraryItem localeCompare file = Some item →
  LibraryItem.type item = cbz →
  let files := getSortedImageFiles localeCompare zip in
  let pages := getComicPages localeCompare zip in
  let opened := step (mount item) (LoadSettled (inr (ComicPages pages))) in
  LibraryItem.totalPages item =
    Z.of_nat (length (List.filter
                        (fun f => negb (JSZipObject.dir f)
                                  && isImageName (JSZipObject.name f)) zip)) ∧
  pageCount opened = Z.of_nat (length pages) ∧
  map ComicPage.id pages =
    map JSZipObject.name (filter (fun f => is_Some (JSZipObject.image f)) files) ∧
  sublist (map ComicPage.id pages) (map JSZipObject.name files) ∧
  pageCount opened <= LibraryItem.totalPages item ∧
  ((∃ f, f ∈ files ∧ JSZipObject.image f = None) →
   pageCount opened < LibraryItem.totalPages item).
Proof.
  intros Harchive Hitem Htype. cbv zeta.
  pose proof (createLibraryItem_comic _ _ _ Harchive Hitem Htype) as Htotal.
  assert (pageCount (step (mount item)
            (LoadSettled (inr (ComicPages (getComicPages localeCompare zip)))))
          = Z.of_nat (length (getComicPages localeCompare zip))) as Hcount.
  { unfold pageCount, totalPages. simpl. by rewrite Htype. }
  rewrite Hcount, Htotal. unfold getComicPages.
  split; [by rewrite length_getSortedImageFiles|].
  split; [done|].
  split; [apply pages_of_decoded|].
  split; [apply pages_sublist|].
  split.
  - pose proof (pages_length (getSortedImageFiles localeCompare zip)). lia.
  - intros (f & Hin & Hnone).
    pose proof (pages_length_undecodable _ _ Hin Hnone). lia.
Qed.

(** With a collation that is total and transitive, the entries come out
    of [getSortedImageFiles] in order, and so do the pages. *)
Section Collated.

Hypothesis localeCompare_total :
  ∀ a b, localeCompare a b <= 0 ∨ localeCompare b a <= 0.

Hypothesis localeCompare_trans :
  ∀ a b c, localeCompare a b <= 0 → localeCompare b c <= 0 →
           localeCompare a c <= 0.

Lemma insertSorted_in_order (f : JSZipObject.t) (sorted : JSZip) :
  StronglySorted (precedes localeCompare) sorted →
  StronglySorted (precedes localeCompare) (insertSorted localeCompare f sorted).
Proof.
  induction 1 as [|g rest Hrest IH Hg]; simpl; [repeat constructor|].
  destruct (Z.leb_spec (localeCompare (JSZipObject.name f) (JSZipObject.name g)) 0)
    as [Hfg|Hgf].
  - constructor; [by constructor|]. constructor; [done|].
    eapply Forall_impl; [exact Hg|]. intros h Hgh.
    by apply (localeCompare_trans _ (JSZipObject.name g)).
  - constructor; [done|].
    rewrite insertSorted_Permutation. constructor; [|done].
    destruct (localeCompare_total (JSZipObject.name f) (JSZipObject.name g));
      [lia|done].
Qed.

Lemma sort_in_order (files : JSZip) :
  StronglySorted (precedes localeCompare) (sort localeCompare files).
Proof.
  induction files as [|f rest IH]; simpl; [constructor|].
  by apply insertSorted_in_order.
Qed.

Lemma pages_after (f : JSZipObject.t) (rest : JSZip) :
  Forall (precedes localeCompare f) rest →
  Forall (fun q => localeCompare (JSZipObject.name f) (ComicPage.id q) <= 0)
         (omap toComicPage rest).
Proof.
  induction 1 as [|g rest Hg _ IH]; [constructor|].
  rewrite omap_toComicPage_cons. unfold toComicPage at 1.
  destruct (JSZipObject.image g) as [[[url w] h]|]; [|done].
  by constructor.
Qed.

Lemma pages_in_order (zip : JSZip) :
  StronglySorted
    (fun p q => localeCompare (ComicPage.id p) (ComicPage.id q) <= 0)
    (getComicPages localeCompare zip).
Proof.
  unfold getComicPages, getSortedImageFiles.
  induction (sort_in_order
               (List.filter
                  (fun f => negb (JSZipObject.dir f)
                            && isImageName (JSZipObject.name f)) zip))
    as [|f rest Hrest IH Hf]; [constructor|].
  rewrite omap_toComicPage_cons. unfold toComicPage at 1.
  destruct (JSZipObject.image f) as [[[url w] h]|]; [|done].
  constructor; [done|]. simpl. by apply pages_after.
Qed.

End Collated.

End Archives.

Section ArchiveExample.
Import Scenario ReaderView BookService.

Lemma undecodable_entries_are_dropped_witness :
  let opened :=
    step (mount comicBook)
         (LoadSettled (inr (ComicPages (getComicPages compareNames archive)))) in
  map ComicPage.id (getComicPages compareNames archive) = ["01.png"; "03.png"] ∧
  pageCount opened = 2 ∧
  LibraryItem.totalPages comicBook = 3 ∧
  pageCount opened < LibraryItem.totalPages comicBook.
Proof.
  cbv zeta.
  destruct (undecodable_entries_are_dropped compareNames comicFile archive comicBook)
    as (_ & _ & _ & _ & _ & Hless).
  - reflexivity.
  - reflexivity.
  - reflexivity.
  - do 3 (split; [reflexivity|]). apply Hless.
    exists (entry "02.PNG" None). split; [|reflexivity].
    vm_compute. apply list_elem_of_further, list_elem_of_here.
Defined.

End ArchiveExample.
